(** * Pokemon Radar Alert: screen capture, pixel classification and the
      monitoring loop

    A shallow embedding of [src/config.py], [src/monitor.py],
    [src/config_manager.py] and the monitoring, preset and area-test parts
    of [src/gui.py], with the properties of the detection core and of the
    code around it stated over it.

    Conventions of the embedding.
    - A PIL image is a width, a height and a pixel accessor; [pixels] lists
      it in the row-major order of [np.array(image)].
    - A Python [float] that results from [count / total * 100] is an exact
      rational ([Q]), where the code rounds twice; a statement about the
      value of such a percentage is made [up_to_rounding]. numpy's
      non-finite results are kept apart in [pyfloat].
    - [cv2.cvtColor(_, COLOR_RGB2GRAY)] is a function of the OpenCV build;
      the per-pixel luminance is a section variable [rgb2gray].
    - The loop's effects (alert tone, sleeps) are returned as a trace, one
      list per executed cycle.
    - The preview image, the loop timing shown in the status text and the
      state of the two buttons are left out: nothing in the loop reads
      them. *)

From Stdlib Require Import ZArith QArith List Bool Lia.
From Stdlib Require String.
Import ListNotations.

Set Implicit Arguments.

(* ================================================================== *)
(** * [src/config.py] *)

Module Config.

Definition DEFAULT_MONITOR_X : Z := 1535.
Definition DEFAULT_MONITOR_Y : Z := 730.
Definition DEFAULT_MONITOR_SIZE : Z := 275.
Definition DEFAULT_WHITE_THRESHOLD : Z := 200.
Definition DEFAULT_BLUE_THRESHOLD : Q := 60.
Definition DEFAULT_CHECK_INTERVAL : Q := 1 # 2.
Definition MIN_CONSECUTIVE_DETECTIONS : nat := 2.
Definition BLACK_PIXEL_WARNING_THRESHOLD : Q := 95.

(** The [MonitorConfig] dataclass. *)
Record MonitorConfig : Type := Build {
  x : Z;
  y : Z;
  width : Z;
  height : Z;
  white_threshold : Z;
  blue_threshold : Q;
  check_interval : Q
}.

Definition default : MonitorConfig :=
  Build DEFAULT_MONITOR_X DEFAULT_MONITOR_Y
        DEFAULT_MONITOR_SIZE DEFAULT_MONITOR_SIZE
        DEFAULT_WHITE_THRESHOLD DEFAULT_BLUE_THRESHOLD DEFAULT_CHECK_INTERVAL.

End Config.

(* ================================================================== *)
(** * Images and Python numbers *)

(** One RGB triple of a [uint8] image. *)
Record pixel : Type := RGB { chan_r : Z; chan_g : Z; chan_b : Z }.

Definition BLACK : pixel := RGB 0 0 0.
Definition WHITE : pixel := RGB 255 255 255.

(** A PIL image in mode "RGB": [getpixel col row]. *)
Record Image : Type := MkImage {
  img_width : nat;
  img_height : nat;
  getpixel : nat -> nat -> pixel
}.

(** A call that either returns or raises. *)
Inductive outcome (A : Type) : Type :=
| Returns (a : A)
| Raises.
Arguments Raises {A}.

(** [Image.new("RGB", (width, height), color)]; PIL refuses negative sizes. *)
Definition Image_new (width height : Z) (color : pixel) : outcome Image :=
  if ((width <? 0) || (height <? 0))%Z then Raises
  else Returns (MkImage (Z.to_nat width) (Z.to_nat height) (fun _ _ => color)).

(** The pixels of [np.array(image)], row by row. *)
Definition pixels (image : Image) : list pixel :=
  flat_map (fun row => map (fun col => getpixel image col row)
                           (seq 0 (img_width image)))
           (seq 0 (img_height image)).

(** [shape[0] * shape[1]] of [np.array(image)], also [gray.size]. *)
Definition total_pixels (image : Image) : nat :=
  (img_height image * img_width image)%nat.

(** [np.count_nonzero] of a boolean mask (and [np.sum] of one). *)
Fixpoint count_nonzero (mask : list bool) : nat :=
  match mask with
  | [] => 0%nat
  | b :: rest => ((if b then 1 else 0) + count_nonzero rest)%nat
  end.

(** Python [int / int]: [None] stands for [ZeroDivisionError]. *)
Definition py_true_divide (a b : nat) : option Q :=
  match b with
  | O => None
  | S _ => Some (inject_Z (Z.of_nat a) / inject_Z (Z.of_nat b))
  end.

(** A float as numpy scalar arithmetic can produce it. *)
Inductive pyfloat : Type :=
| NaN
| PInf
| Fin (q : Q).

(** [np.int64 / int]: division by zero warns and yields [nan] or [inf]. *)
Definition np_true_divide (a b : nat) : pyfloat :=
  match b with
  | O => match a with O => NaN | S _ => PInf end
  | S _ => Fin (inject_Z (Z.of_nat a) / inject_Z (Z.of_nat b))
  end.

Definition float_mul (f : pyfloat) (k : Q) : pyfloat :=
  match f with
  | Fin q => Fin (q * k)
  | other => other
  end.

(** [f <= bound]; comparisons with [nan] are false. *)
Definition float_le (f : pyfloat) (bound : Q) : bool :=
  match f with
  | Fin q => Qle_bool q bound
  | _ => false
  end.

(** [a > b] and [a >= b] on finite floats. *)
Definition Qgt_bool (a b : Q) : bool := negb (Qle_bool a b).
Definition Qge_bool (a b : Q) : bool := Qle_bool b a.

(* ================================================================== *)
(** * [src/monitor.py] *)

Module Monitor.

(** [BLUE_LOWER = np.array([0, 70, 75])], [BLUE_UPPER = np.array([15, 155, 155])]. *)
Definition BLUE_LOWER : pixel := RGB 0 70 75.
Definition BLUE_UPPER : pixel := RGB 15 155 155.

(** One element of [cv2.inRange(src, lowerb, upperb)]: every channel of the
    source lies between the bounds, both ends included. *)
Definition inRange (lowerb upperb : pixel) (p : pixel) : bool :=
  ((chan_r lowerb <=? chan_r p) && (chan_r p <=? chan_r upperb) &&
   (chan_g lowerb <=? chan_g p) && (chan_g p <=? chan_g upperb) &&
   (chan_b lowerb <=? chan_b p) && (chan_b p <=? chan_b upperb))%Z.

(** One element of [np.all(img_array < 10, axis=2)]. *)
Definition all_below_10 (p : pixel) : bool :=
  ((chan_r p <? 10) && (chan_g p <? 10) && (chan_b p <? 10))%Z.

(** What [sct.grab(monitor)] does: it raises, or hands back a screenshot
    with the size the backend reports for it. *)
Definition grabber : Type := Z -> Z -> Z -> Z -> outcome Image.

(** [ScreenMonitor.take_screenshot]. The value is a Python object, so it
    could be [None]; [Image.frombytes] keeps [screenshot.size]. The
    [except] branch builds the black image, and an exception raised there
    leaves the method. *)
Definition take_screenshot (grab : grabber) (x y width height : Z)
  : outcome (option Image) :=
  match grab x y width height with
  | Returns screenshot =>
      Returns (Some (MkImage (img_width screenshot) (img_height screenshot)
                             (getpixel screenshot)))
  | Raises =>
      match Image_new width height BLACK with
      | Returns image => Returns (Some image)
      | Raises => Raises
      end
  end.

(** [ScreenMonitor.detect_blue_pixels]: the mask is taken on [img_array]
    itself, the RGB array. *)
Definition detect_blue_pixels (image : Image) : Q :=
  let blue_mask := map (inRange BLUE_LOWER BLUE_UPPER) (pixels image) in
  let blue_pixels := count_nonzero blue_mask in
  match py_true_divide blue_pixels (total_pixels image) with
  | Some ratio => ratio * 100
  | None => 0
  end.

(** [ScreenMonitor.analyze_screenshot_quality]. *)
Definition analyze_screenshot_quality (image : Image) : bool * pyfloat :=
  let black_pixels := count_nonzero (map all_below_10 (pixels image)) in
  let black_percentage :=
    float_mul (np_true_divide black_pixels (total_pixels image)) 100 in
  let is_valid := float_le black_percentage Config.BLACK_PIXEL_WARNING_THRESHOLD in
  (is_valid, black_percentage).

Section Gray.

(** The luminance [cv2.cvtColor(img_array, cv2.COLOR_RGB2GRAY)] gives a pixel. *)
Variable rgb2gray : pixel -> Z.

(** [ScreenMonitor.detect_white_pixels]. *)
Definition detect_white_pixels (image : Image) (threshold : Z) : Q :=
  let gray := map rgb2gray (pixels image) in
  let white_pixels := count_nonzero (map (fun g => (threshold <=? g)%Z) gray) in
  match py_true_divide white_pixels (total_pixels image) with
  | Some ratio => ratio * 100
  | None => 0
  end.

End Gray.

End Monitor.

(* ================================================================== *)
(** * [src/config_manager.py] *)

Module ConfigManager.

(** The object [json.load] reads from the configuration file: each key of
    the record is present with a number, or absent. *)
Record config_data : Type := Data {
  d_x : option Z;
  d_y : option Z;
  d_width : option Z;
  d_height : option Z;
  d_white_threshold : option Z;
  d_blue_threshold : option Q;
  d_check_interval : option Q
}.

(** [dict.get(key, default)]. *)
Definition get {A : Type} (entry : option A) (default : A) : A :=
  match entry with
  | Some v => v
  | None => default
  end.

(** [ConfigManager.load_config_from_file]; [None] is a missing file, or one
    that could not be read. No range is checked here. *)
Definition load_config_from_file (file : option config_data)
  : Config.MonitorConfig :=
  match file with
  | Some data =>
      let config := Config.default in
      Config.Build
        (get (d_x data) (Config.x config))
        (get (d_y data) (Config.y config))
        (get (d_width data) (Config.width config))
        (get (d_height data) (Config.height config))
        (get (d_white_threshold data) (Config.white_threshold config))
        (get (d_blue_threshold data) (Config.blue_threshold config))
        (get (d_check_interval data) (Config.check_interval config))
  | None => Config.default
  end.

End ConfigManager.

(* ================================================================== *)
(** * [src/gui.py] *)

Module Gui.

(** What [status_var] is set to. *)
Inductive status_msg : Type :=
| ReadyToStart
| UpdatedArea
| FailedScreenshot (attempt : nat)
| TooManyScreenshotErrors
| WarningBlack (black_percentage : pyfloat)
| PokemonDetected (white_percentage blue_percentage : Q) (detection : nat)
| Monitoring (white_percentage blue_percentage : Q)
             (white_detected blue_detected : bool)
| MonitoringError (error_count : nat)
| TooManyErrors
| MonitoringStarted
| MonitoringStopped.

(** Why [validate_configuration] or [validate_inputs] said no. *)
Inductive complaint : Type :=
| OutOfBounds
| CannotTakeScreenshots
| MostlyBlack (black_percentage : pyfloat)
| ValidationFailed
| InvalidInput
| UpdateFailed.

(** What the application does to the outside, in order. *)
Inductive effect : Type :=
| PlayAlertSound
| Sleep (seconds : Q)
| ShowError (why : complaint)
| StartThread.

Inductive thread_id : Type := MainThread | WorkerThread.

Definition thread_eqb (a b : thread_id) : bool :=
  match a, b with
  | MainThread, MainThread | WorkerThread, WorkerThread => true
  | _, _ => false
  end.

(** The entry fields: what [int(...)] or [float(...)] makes of each text,
    [None] when it raises [ValueError]. A text that [float] reads as [nan]
    or [inf] has no counterpart here. *)
Record form_vars : Type := Form {
  x_var : option Z;
  y_var : option Z;
  width_var : option Z;
  height_var : option Z;
  threshold_var : option Z;
  blue_threshold_var : option Q;
  interval_var : option Q
}.

(** The fields of [PokemonRadarGUI] the monitoring session reads or writes. *)
Record app : Type := App {
  monitoring : bool;
  monitor_thread : option thread_id;
  consecutive_detections : nat;
  config : Config.MonitorConfig;
  form : form_vars;
  status : status_msg
}.

Definition set_monitoring (b : bool) (a : app) : app :=
  App b (monitor_thread a) (consecutive_detections a) (config a) (form a) (status a).
Definition set_monitor_thread (t : option thread_id) (a : app) : app :=
  App (monitoring a) t (consecutive_detections a) (config a) (form a) (status a).
Definition set_consecutive_detections (n : nat) (a : app) : app :=
  App (monitoring a) (monitor_thread a) n (config a) (form a) (status a).
Definition set_config (c : Config.MonitorConfig) (a : app) : app :=
  App (monitoring a) (monitor_thread a) (consecutive_detections a) c (form a) (status a).
Definition set_status (s : status_msg) (a : app) : app :=
  App (monitoring a) (monitor_thread a) (consecutive_detections a) (config a) (form a) s.

(** The entry fields as [setup_gui] fills them: [str] of each field. *)
Definition form_of_config (c : Config.MonitorConfig) : form_vars :=
  Form (Some (Config.x c)) (Some (Config.y c))
       (Some (Config.width c)) (Some (Config.height c))
       (Some (Config.white_threshold c))
       (Some (Config.blue_threshold c)) (Some (Config.check_interval c)).

(** [PokemonRadarGUI.__init__]: the saved configuration replaces the
    defaults and the form shows it. *)
Definition init (file : option ConfigManager.config_data) : app :=
  let saved_config := ConfigManager.load_config_from_file file in
  App false None 0%nat saved_config (form_of_config saved_config) ReadyToStart.

(** The values [validate_inputs] parses, when every field parses. *)
Definition parse_form (f : form_vars) : option Config.MonitorConfig :=
  match x_var f, y_var f, width_var f, height_var f,
        threshold_var f, blue_threshold_var f, interval_var f with
  | Some x, Some y, Some width, Some height,
    Some threshold, Some blue_threshold, Some interval =>
      Some (Config.Build x y width height threshold blue_threshold interval)
  | _, _, _, _, _, _, _ => None
  end.

(** The range checks of [validate_inputs], in its order. *)
Definition ranges_ok (c : Config.MonitorConfig) : bool :=
  if ((Config.width c <=? 0) || (Config.height c <=? 0))%Z then false
  else if negb ((0 <=? Config.white_threshold c) &&
                (Config.white_threshold c <=? 255))%Z then false
  else if negb (Qle_bool 0 (Config.blue_threshold c) &&
                Qle_bool (Config.blue_threshold c) 100) then false
  else if Qle_bool (Config.check_interval c) 0 then false
  else true.

(** [validate_inputs]: every [ValueError] ends in the error box. *)
Definition validate_inputs (a : app) : bool * list effect :=
  match parse_form (form a) with
  | Some c => if ranges_ok c then (true, [])
              else (false, [ShowError InvalidInput])
  | None => (false, [ShowError InvalidInput])
  end.

(** [update_monitor_area]; [save_ok] tells whether writing the
    configuration file succeeds. *)
Definition update_monitor_area (save_ok : bool) (a : app) : app * list effect :=
  let '(ok, shown) := validate_inputs a in
  if negb ok then (a, shown)
  else
    match parse_form (form a) with
    | Some c =>
        let a := set_config c a in
        if save_ok then (set_status UpdatedArea a, shown)
        else (a, shown ++ [ShowError UpdateFailed])
    | None => (a, shown ++ [ShowError UpdateFailed])
    end.

(** [validate_configuration], given what [get_screen_size] reports. *)
Definition validate_configuration
  (screen_width screen_height : Z) (grab : Monitor.grabber) (a : app)
  : bool * option complaint :=
  let c := config a in
  if ((Config.x c <? - screen_width * 2) ||
      (Config.x c >? screen_width * 3) ||
      (Config.y c <? - screen_height) ||
      (Config.y c >? screen_height * 2))%Z
  then (false, Some OutOfBounds)
  else
    match Monitor.take_screenshot grab (Config.x c) (Config.y c)
            (Z.min (Config.width c) 100) (Z.min (Config.height c) 100) with
    | Raises => (false, Some ValidationFailed)
    | Returns None => (false, Some CannotTakeScreenshots)
    | Returns (Some test_screenshot) =>
        let '(is_valid, black_percentage) :=
          Monitor.analyze_screenshot_quality test_screenshot in
        if negb is_valid then (false, Some (MostlyBlack black_percentage))
        else (true, None)
    end.

(** [start_monitoring]. The outcome of [update_monitor_area] is not
    looked at. *)
Definition start_monitoring
  (screen_width screen_height : Z) (grab : Monitor.grabber) (save_ok : bool)
  (a : app) : app * list effect :=
  if negb (monitoring a) then
    let '(is_valid, message) :=
      validate_configuration screen_width screen_height grab a in
    if negb is_valid then
      (a, [ShowError (match message with Some m => m | None => ValidationFailed end)])
    else
      let '(a, shown) := update_monitor_area save_ok a in
      let a := set_monitoring true a in
      let a := set_monitor_thread (Some WorkerThread) a in
      (set_status MonitoringStarted a, shown ++ [StartThread])
  else (a, []).

(** The session is in the Running state. *)
Definition running (a : app) : bool := monitoring a.

(** ** The monitoring loop *)

(** [max_errors = 5], local to [monitor_screen]. *)
Definition max_errors : nat := 5.

(** The state one cycle works on: the object and the local [error_count]. *)
Record loop_state : Type := Loop {
  gui : app;
  error_count : nat
}.

(** How a statement ends: it falls through, or leaves by [continue],
    [return] or an exception. *)
Inductive ctl : Type := Next | Continue | Return | Raise.

(** A statement of the loop body: new state, effects in order, and how it
    ended. *)
Definition stmt : Type := loop_state -> loop_state * list effect * ctl.

Definition then_ (s1 s2 : stmt) : stmt :=
  fun st =>
    let '(st1, e1, c1) := s1 st in
    match c1 with
    | Next => let '(st2, e2, c2) := s2 st1 in (st2, e1 ++ e2, c2)
    | _ => (st1, e1, c1)
    end.

Notation "s1 ;; s2" := (then_ s1 s2) (at level 61, right associativity).

(** [try: body except Exception: handler]. *)
Definition try_except (body handler : stmt) : stmt :=
  fun st =>
    let '(st1, e1, c1) := body st in
    match c1 with
    | Raise => let '(st2, e2, c2) := handler st1 in (st2, e1 ++ e2, c2)
    | _ => (st1, e1, c1)
    end.

Definition pass : stmt := fun st => (st, [], Next).
Definition continue_ : stmt := fun st => (st, [], Continue).
Definition return_ : stmt := fun st => (st, [], Return).
Definition raise_ : stmt := fun st => (st, [], Raise).
Definition emit (e : effect) : stmt := fun st => (st, [e], Next).
Definition on_gui (f : app -> app) : stmt :=
  fun st => (Loop (f (gui st)) (error_count st), [], Next).
Definition set_error_count (f : nat -> nat) : stmt :=
  fun st => (Loop (gui st) (f (error_count st)), [], Next).
Definition status_set (s : loop_state -> status_msg) : stmt :=
  fun st => on_gui (set_status (s st)) st.
Definition if_ (cond : loop_state -> bool) (s1 s2 : stmt) : stmt :=
  fun st => if cond st then s1 st else s2 st.

(** [time.sleep(seconds)]: a negative length raises [ValueError]. *)
Definition time_sleep (seconds : loop_state -> Q) : stmt :=
  fun st => if Qle_bool 0 (seconds st) then emit (Sleep (seconds st)) st
            else raise_ st.

Definition sleep_check_interval : stmt :=
  time_sleep (fun st => Config.check_interval (config (gui st))).

(** [stop_monitoring] as called by thread [me]: [Thread.join] on the
    calling thread itself raises [RuntimeError], after the flag is cleared. *)
Definition stop_monitoring (me : thread_id) : stmt :=
  on_gui (set_monitoring false) ;;
  if_ (fun st => match monitor_thread (gui st) with
                 | Some t => thread_eqb t me
                 | None => false
                 end)
      raise_
      (on_gui (set_status MonitoringStopped)).

Section Loop.

Variable rgb2gray : pixel -> Z.

(** The thread that runs [monitor_screen]. *)
Variable me : thread_id.

(** The statements under [try:] for one pass of the [while], given what
    the call of [take_screenshot] did. *)
Definition cycle_body (shot : outcome (option Image)) : stmt :=
  match shot with
  | Raises => raise_
  | Returns None =>
      set_error_count S ;;
      if_ (fun st => (max_errors <=? error_count st)%nat)
          (status_set (fun _ => TooManyScreenshotErrors) ;;
           stop_monitoring me ;;
           return_)
          (status_set (fun st => FailedScreenshot (error_count st)) ;;
           sleep_check_interval ;;
           continue_)
  | Returns (Some screenshot) =>
      set_error_count (fun _ => 0%nat) ;;
      let '(is_valid, black_percentage) :=
        Monitor.analyze_screenshot_quality screenshot in
      if negb is_valid then
        status_set (fun _ => WarningBlack black_percentage) ;;
        sleep_check_interval ;;
        continue_
      else
        fun st0 =>
        let white_percentage :=
          Monitor.detect_white_pixels rgb2gray screenshot
            (Config.white_threshold (config (gui st0))) in
        let blue_percentage := Monitor.detect_blue_pixels screenshot in
        let white_detected := Qgt_bool white_percentage (1 # 10) in
        let blue_detected :=
          Qge_bool blue_percentage (Config.blue_threshold (config (gui st0))) in
        ((if white_detected && blue_detected then
            on_gui (fun a => set_consecutive_detections
                               (S (consecutive_detections a)) a) ;;
            status_set (fun st => PokemonDetected white_percentage blue_percentage
                                    (consecutive_detections (gui st))) ;;
            if_ (fun st => (Config.MIN_CONSECUTIVE_DETECTIONS
                              <=? consecutive_detections (gui st))%nat)
                (emit PlayAlertSound ;; time_sleep (fun _ => 2))
                pass
          else
            on_gui (set_consecutive_detections 0%nat) ;;
            status_set (fun _ => Monitoring white_percentage blue_percentage
                                   white_detected blue_detected)) ;;
         sleep_check_interval) st0
  end.

(** The [except Exception] clause of the loop. *)
Definition on_exception : stmt :=
  set_error_count S ;;
  status_set (fun st => MonitoringError (error_count st)) ;;
  if_ (fun st => (max_errors <=? error_count st)%nat)
      (status_set (fun _ => TooManyErrors) ;;
       stop_monitoring me ;;
       return_)
      (time_sleep (fun _ => 1)).

(** One pass of the [while] body. *)
Definition cycle (shot : outcome (option Image)) : stmt :=
  try_except (cycle_body shot) on_exception.

(** How a run over a finite supply of captures ends. *)
Inductive loop_exit : Type :=
| Exhausted   (* still Running when the supply ran out *)
| Left        (* the [while] condition was false, or [return] *)
| Crashed.    (* an exception left [monitor_screen] *)

(** The [while self.monitoring] loop over the captures of successive
    cycles; the trace has one list of effects per executed cycle. *)
Fixpoint monitor_loop (shots : list (outcome (option Image))) (st : loop_state)
  : loop_state * list (list effect) * loop_exit :=
  if monitoring (gui st) then
    match shots with
    | [] => (st, [], Exhausted)
    | shot :: rest =>
        let '(st1, effects, c) := cycle shot st in
        match c with
        | Next | Continue =>
            let '(st2, trace, e) := monitor_loop rest st1 in
            (st2, effects :: trace, e)
        | Return => (st1, [effects], Left)
        | Raise => (st1, [effects], Crashed)
        end
    end
  else (st, [], Left).

(** [monitor_screen]: both counters start from zero. *)
Definition monitor_screen (shots : list (outcome (option Image))) (a : app)
  : loop_state * list (list effect) * loop_exit :=
  monitor_loop shots (Loop (set_consecutive_detections 0%nat a) 0%nat).

(** The loop fed by [take_screenshot] over what the backend does in each
    cycle. *)
Definition monitor_screen_grabbing (grabs : list Monitor.grabber) (a : app)
  : loop_state * list (list effect) * loop_exit :=
  let c := config a in
  monitor_screen
    (map (fun grab => Monitor.take_screenshot grab (Config.x c) (Config.y c)
                        (Config.width c) (Config.height c)) grabs) a.

End Loop.

(** ** Reading the result of a cycle and a trace *)

Definition state_after (r : loop_state * list effect * ctl) : loop_state :=
  fst (fst r).
Definition effects_of (r : loop_state * list effect * ctl) : list effect :=
  snd (fst r).
Definition ending (r : loop_state * list effect * ctl) : ctl := snd r.

(** The loop goes on to its next pass. *)
Definition goes_on (c : ctl) : bool :=
  match c with
  | Next | Continue => true
  | Return | Raise => false
  end.

(** The parts of the result of a run. *)
Definition final_state (r : loop_state * list (list effect) * loop_exit)
  : loop_state := fst (fst r).
Definition trace_of (r : loop_state * list (list effect) * loop_exit)
  : list (list effect) := snd (fst r).
Definition exit_of (r : loop_state * list (list effect) * loop_exit)
  : loop_exit := snd r.

(** The capture of a cycle failed: the sentinel, or an exception. *)
Definition capture_failed (shot : outcome (option Image)) : bool :=
  match shot with
  | Raises | Returns None => true
  | Returns (Some _) => false
  end.

Definition is_alert (e : effect) : bool :=
  match e with
  | PlayAlertSound => true
  | _ => false
  end.

Definition alerts (effects : list effect) : nat :=
  length (filter is_alert effects).

Definition total_alerts (trace : list (list effect)) : nat :=
  alerts (concat trace).

(** The lengths of the sleeps of one cycle, in order. *)
Fixpoint sleeps (effects : list effect) : list Q :=
  match effects with
  | [] => []
  | Sleep seconds :: rest => seconds :: sleeps rest
  | _ :: rest => sleeps rest
  end.

(** The statuses with which a session ends. *)
Definition terminal_status (s : status_msg) : bool :=
  match s with
  | TooManyScreenshotErrors | TooManyErrors | MonitoringStopped => true
  | _ => false
  end.

(** What a cycle finds, as the loop body classifies it. *)
Inductive finding : Type :=
| CaptureRaised
| CaptureFailed       (* the [None] sentinel *)
| FrameInvalid        (* the quality check said no *)
| NotDetected         (* classified, not both conditions *)
| Detected.           (* white and blue both detected *)

Definition classify (rgb2gray : pixel -> Z) (c : Config.MonitorConfig)
  (shot : outcome (option Image)) : finding :=
  match shot with
  | Raises => CaptureRaised
  | Returns None => CaptureFailed
  | Returns (Some screenshot) =>
      if negb (fst (Monitor.analyze_screenshot_quality screenshot))
      then FrameInvalid
      else if Qgt_bool (Monitor.detect_white_pixels rgb2gray screenshot
                          (Config.white_threshold c)) (1 # 10)
              && Qge_bool (Monitor.detect_blue_pixels screenshot)
                          (Config.blue_threshold c)
      then Detected else NotDetected
  end.

Definition is_detected (f : finding) : bool :=
  match f with Detected => true | _ => false end.

Definition is_failure (f : finding) : bool :=
  match f with CaptureRaised | CaptureFailed => true | _ => false end.

End Gui.

(* ================================================================== *)
(** * Sample inputs and reference definitions *)

(** [count / total * 100] as an exact rational. *)
Definition percentage (count total : nat) : Q :=
  inject_Z (Z.of_nat count) / inject_Z (Z.of_nat total) * 100.

(** [value] is [exact] up to the rounding of one double division followed
    by one double multiplication: a relative error of at most 2^-51. The
    embedding computes a percentage exactly where the code rounds twice
    (29 of 100 is 28.999999999999996 in the code); a statement about the
    value of a returned percentage leaves this room, so that it reads
    true of the double the code returns. *)
Definition up_to_rounding (value exact : Q) : Prop :=
  exact - exact * (1 # 2251799813685248) <= value /\
  value <= exact + exact * (1 # 2251799813685248).

(** The number of pixels of an image that satisfy a test. *)
Definition count_pixels (test : pixel -> bool) (image : Image) : nat :=
  count_nonzero (map test (pixels image)).

(** Every pixel inside the bounds of the image satisfies [P]. *)
Definition every_pixel (P : pixel -> Prop) (image : Image) : Prop :=
  forall col row, (col < img_width image)%nat -> (row < img_height image)%nat ->
                  P (getpixel image col row).

(** An image of one colour. *)
Definition solid (width height : nat) (color : pixel) : Image :=
  MkImage width height (fun _ _ => color).

(** A luminance with the weights 0.299, 0.587 and 0.114 in 15-bit fixed
    point, as OpenCV computes it for 8-bit images: an instance of the
    [rgb2gray] the classifier is stated over. *)
Definition cv_rgb2gray (p : pixel) : Z :=
  Z.shiftr (chan_r p * 9798 + chan_g p * 19235 + chan_b p * 3735 + 16384) 15.

(** ** The band read over hue, saturation and value

    The specification words [blue_ratio] as a test on (H,S,V). The
    definitions below follow those words, with the 8-bit convention of
    [cv2.COLOR_RGB2HSV] (H in degrees halved, S and V scaled to 255); no
    function of the source calls them. *)

Module SpecHSV.

(** [a / b] rounded to the nearest integer, for [0 < b]. *)
Definition div_round (a b : Z) : Z := ((2 * a + b) / (2 * b))%Z.

(** The (H,S,V) triple of an RGB pixel, stored in the three channels. *)
Definition rgb2hsv (p : pixel) : pixel :=
  let r := chan_r p in
  let g := chan_g p in
  let b := chan_b p in
  let v := Z.max r (Z.max g b) in
  let diff := (v - Z.min r (Z.min g b))%Z in
  let s := if (v =? 0)%Z then 0%Z else div_round (255 * diff) v in
  let sector :=
    if (v =? r)%Z then (g - b)%Z
    else if (v =? g)%Z then (b - r + 2 * diff)%Z
    else (r - g + 4 * diff)%Z in
  let h := if (diff =? 0)%Z then 0%Z else div_round (30 * sector) diff in
  RGB (if (h <? 0)%Z then (h + 180)%Z else h) s v.

(** The pixel test of the specification: (H,S,V) within the band. *)
Definition hsv_in_band (p : pixel) : bool :=
  Monitor.inRange Monitor.BLUE_LOWER Monitor.BLUE_UPPER (rgb2hsv p).

(** [blue_ratio] as the specification words it. *)
Definition blue_ratio_hsv (image : Image) : Q :=
  match py_true_divide (count_pixels hsv_in_band image) (total_pixels image) with
  | Some ratio => ratio * 100
  | None => 0
  end.

End SpecHSV.

(** The band of [BLUE_LOWER] and [BLUE_UPPER] on the RGB channels. *)
Definition in_rgb_band (p : pixel) : Prop :=
  (0 <= chan_r p <= 15 /\ 70 <= chan_g p <= 155 /\ 75 <= chan_b p <= 155)%Z.

(** Sample colours: a teal inside the RGB band, a tan outside it. *)
Definition TEAL : pixel := RGB 0 100 100.
Definition TAN : pixel := RGB 150 100 80.

(** ** Sample sessions *)

Module Samples.

(** A 2x1 region, white threshold 200, blue threshold 50%, interval 0.5s. *)
Definition cfg : Config.MonitorConfig := Config.Build 0 0 2 1 200 50 (1 # 2).

(** A session as [start_monitoring] leaves it, run by its worker thread. *)
Definition session : Gui.app :=
  Gui.App true (Some Gui.WorkerThread) 0%nat cfg (Gui.form_of_config cfg)
          Gui.MonitoringStarted.

(** One white pixel next to one teal pixel: both conditions hold. *)
Definition hit : Image :=
  MkImage 2 1 (fun col _ => if (col =? 0)%nat then WHITE else TEAL).

(** White without blue. *)
Definition miss : Image := solid 2 1 WHITE.

(** What the capture gives in a cycle, for the three frames and the two
    failures. *)
Definition shot_hit : outcome (option Image) := Returns (Some hit).
Definition shot_miss : outcome (option Image) := Returns (Some miss).
Definition shot_black : outcome (option Image) := Returns (Some (solid 2 1 BLACK)).
Definition shot_none : outcome (option Image) := Returns None.

(** The same session with a check interval of -0.5s, as a configuration
    file can carry it, and its five detecting cycles. *)
Definition cfg_negative : Config.MonitorConfig :=
  Config.Build 0 0 2 1 200 50 (- 1 # 2).
Definition five_hits : list (outcome (option Image)) :=
  [shot_hit; shot_hit; shot_hit; shot_hit; shot_hit].

(** A backend that always raises, and one that returns a white screenshot
    of twice the requested size, as a display with a scale factor of 2. *)
Definition grab_fails : Monitor.grabber := fun _ _ _ _ => Raises.
Definition grab_white : Monitor.grabber :=
  fun _ _ width height =>
    Returns (solid (Z.to_nat width) (Z.to_nat height) WHITE).

End Samples.

(** ** A saved configuration out of range *)

Module BadFile.

(** A configuration file whose only key is a white threshold of 300. *)
Definition data : ConfigManager.config_data :=
  ConfigManager.Data None None None None (Some 300%Z) None None.

(** The application as it comes up with that file. *)
Definition app0 : Gui.app := Gui.init (Some data).

End BadFile.


(* ================================================================== *)
(** * Proof tactics for the statements of the loop *)

Import Gui.

Ltac unfold_stmt :=
  cbv [cycle try_except cycle_body on_exception then_ if_ status_set on_gui
       set_error_count emit pass continue_ return_ raise_ time_sleep
       sleep_check_interval stop_monitoring state_after effects_of ending
       classify] in *.

Ltac simpl_state :=
  cbn [fst snd gui error_count config monitoring monitor_thread
       consecutive_detections status form set_status set_monitoring
       set_consecutive_detections set_config set_monitor_thread
       List.app negb andb is_detected is_failure goes_on terminal_status
       alerts is_alert filter length sleeps] in *.

(** Case analysis on every test the cycle makes. *)
Ltac split_ifs :=
  repeat (simpl_state;
          match goal with
          | |- context [if ?b then _ else _] => destruct b eqn:?
          end);
  simpl_state.

Ltac leb_facts :=
  unfold max_errors in *;
  repeat match goal with
         | H : (_ <=? _)%nat = true |- _ => apply Nat.leb_le in H
         | H : (_ <=? _)%nat = false |- _ => apply Nat.leb_gt in H
         end.

Ltac close_cases :=
  repeat split; intros; try reflexivity; try discriminate; try lia.

(* ================================================================== *)
(** * The rest of [src/config_manager.py]: presets and the saved file *)

Module Store.

(** A preset as [add_preset] builds it, and the [presets] dict: names in
    insertion order, as a Python dict keeps them. Of a dict read from the
    presets file only the seven keys of a configuration are represented. *)
Definition preset : Type := ConfigManager.config_data.
Definition preset_dict : Type := list (String.string * preset).

(** [d.get(name)]. *)
Fixpoint dict_get (name : String.string) (d : preset_dict) : option preset :=
  match d with
  | [] => None
  | (key, value) :: rest =>
      if String.eqb key name then Some value else dict_get name rest
  end.

(** [name in d]. *)
Definition dict_contains (name : String.string) (d : preset_dict) : bool :=
  existsb (fun entry => String.eqb (fst entry) name) d.

(** [d[name] = value]: an existing key keeps its place, a new one goes
    last. *)
Fixpoint dict_set (name : String.string) (value : preset) (d : preset_dict)
  : preset_dict :=
  match d with
  | [] => [(name, value)]
  | (key, old) :: rest =>
      if String.eqb key name then (key, value) :: rest
      else (key, old) :: dict_set name value rest
  end.

(** [del d[name]]. *)
Definition dict_del (name : String.string) (d : preset_dict) : preset_dict :=
  filter (fun entry => negb (String.eqb (fst entry) name)) d.

(** The dict [add_preset] and [save_config_to_file] build from a
    configuration. *)
Definition config_dict (c : Config.MonitorConfig) : ConfigManager.config_data :=
  ConfigManager.Data
    (Some (Config.x c)) (Some (Config.y c))
    (Some (Config.width c)) (Some (Config.height c))
    (Some (Config.white_threshold c))
    (Some (Config.blue_threshold c)) (Some (Config.check_interval c)).

(** What opening a file for writing and [json.dump] come to: the file
    holds the new content, or the call raises and leaves behind whatever
    it leaves ([None]: no file, or one that cannot be read). *)
Inductive write (A : Type) : Type :=
| Written
| WriteFailed (left_behind : option A).
Arguments Written {A}.

(** A [ConfigManager] with the content of its two files. *)
Record manager : Type := Manager {
  presets_on_disk : option preset_dict;
  config_on_disk : option ConfigManager.config_data;
  presets : preset_dict
}.

(** [load_presets]: a missing or unreadable file gives the empty dict. *)
Definition load_presets (on_disk : option preset_dict) : preset_dict :=
  match on_disk with
  | Some d => d
  | None => []
  end.

(** [ConfigManager.__init__]. *)
Definition open (presets_file : option preset_dict)
  (config_file : option ConfigManager.config_data) : manager :=
  Manager presets_file config_file (load_presets presets_file).

(** [save_presets]: the error is logged and raised again. *)
Definition save_presets (w : write preset_dict) (m : manager)
  : manager * outcome unit :=
  match w with
  | Written =>
      (Manager (Some (presets m)) (config_on_disk m) (presets m), Returns tt)
  | WriteFailed left_behind =>
      (Manager left_behind (config_on_disk m) (presets m), Raises)
  end.

(** [add_preset]: the dict is changed before the file is written. *)
Definition add_preset (w : write preset_dict) (name : String.string)
  (c : Config.MonitorConfig) (m : manager) : manager * outcome unit :=
  save_presets w
    (Manager (presets_on_disk m) (config_on_disk m)
             (dict_set name (config_dict c) (presets m))).

(** [get_preset]. *)
Definition get_preset (name : String.string) (m : manager) : option preset :=
  dict_get name (presets m).

(** [delete_preset]: nothing is written for a name that is not there. *)
Definition delete_preset (w : write preset_dict) (name : String.string)
  (m : manager) : manager * outcome unit :=
  if dict_contains name (presets m) then
    save_presets w
      (Manager (presets_on_disk m) (config_on_disk m)
               (dict_del name (presets m)))
  else (m, Returns tt).

(** [get_preset_names]. *)
Definition get_preset_names (m : manager) : list String.string :=
  map fst (presets m).

(** [save_config_to_file]. *)
Definition save_config_to_file (w : write ConfigManager.config_data)
  (c : Config.MonitorConfig) (m : manager) : manager * outcome unit :=
  match w with
  | Written =>
      (Manager (presets_on_disk m) (Some (config_dict c)) (presets m), Returns tt)
  | WriteFailed left_behind =>
      (Manager (presets_on_disk m) left_behind (presets m), Raises)
  end.

(** [load_config_from_file] of this manager. *)
Definition load_config (m : manager) : Config.MonitorConfig :=
  ConfigManager.load_config_from_file (config_on_disk m).

End Store.

(* ================================================================== *)
(** * The rest of [src/monitor.py]: screen size and capture sessions *)

Module Screen.

(** An entry of [sct.monitors]. *)
Record monitor_rect : Type := Rect {
  left : Z;
  top : Z;
  width : Z;
  height : Z
}.

(** [get_screen_size], given what [get_mss_instance().monitors] does. An
    index out of range is caught like any other exception. *)
Definition get_screen_size (monitors : outcome (list monitor_rect)) : Z * Z :=
  match monitors with
  | Raises => (1920, 1080)%Z
  | Returns monitors =>
      if (1 <? length monitors)%nat then
        match nth_error monitors 0 with
        | Some virtual_monitor =>
            (width virtual_monitor, height virtual_monitor)
        | None => (1920, 1080)%Z
        end
      else
        match (if (1 <? length monitors)%nat then nth_error monitors 1
               else nth_error monitors 0) with
        | Some primary => (width primary, height primary)
        | None => (1920, 1080)%Z
        end
  end.

(** Threads and capture sessions ([mss.mss()] objects) by number. *)
Definition thread : Type := nat.
Definition mss_session : Type := nat.

(** The [_thread_local] store of a [ScreenMonitor]: the [mss_instance] of
    each thread, how many sessions were created so far, and the sessions
    that were closed. *)
Record screen_monitor : Type := SM {
  mss_instance : thread -> option mss_session;
  created : nat;
  closed : list mss_session
}.

(** [ScreenMonitor.__init__]. *)
Definition new : screen_monitor := SM (fun _ => None) 0%nat [].

Definition set_instance (t : thread) (v : option mss_session)
  (store : thread -> option mss_session) : thread -> option mss_session :=
  fun t' => if (t' =? t)%nat then v else store t'.

(** [get_mss_instance] called in thread [t]; [create_ok] tells whether
    importing [mss] and [mss.mss()] succeed. *)
Definition get_mss_instance (create_ok : bool) (t : thread) (s : screen_monitor)
  : screen_monitor * outcome mss_session :=
  match mss_instance s t with
  | Some instance => (s, Returns instance)
  | None =>
      if create_ok then
        (SM (set_instance t (Some (created s)) (mss_instance s))
            (S (created s)) (closed s),
         Returns (created s))
      else (s, Raises)
  end.

(** [cleanup] called in thread [t]. *)
Definition cleanup (t : thread) (s : screen_monitor) : screen_monitor :=
  match mss_instance s t with
  | Some instance =>
      SM (set_instance t None (mss_instance s)) (created s)
         (instance :: closed s)
  | None => s
  end.

(** A call on the [ScreenMonitor] from some thread. *)
Inductive call : Type :=
| GetInstance (create_ok : bool) (t : thread)
| Cleanup (t : thread).

Definition do_call (c : call) (s : screen_monitor) : screen_monitor :=
  match c with
  | GetInstance create_ok t => fst (get_mss_instance create_ok t s)
  | Cleanup t => cleanup t s
  end.

(** The calls of a program, oldest first. *)
Definition do_calls (calls : list call) (s : screen_monitor) : screen_monitor :=
  fold_left (fun s c => do_call c s) calls s.

End Screen.

(** Two preset names for the examples. *)
Module Names.
Import String.
Definition den : String.string := "den"%string.
Definition cave : String.string := "cave"%string.
End Names.

(** What holds of the store of capture sessions after any calls: the
    session of a thread was created, is not closed and belongs to no
    other thread, and the closed ones were created. *)
Definition sessions_ok (s : Screen.screen_monitor) : Prop :=
  (forall t h, Screen.mss_instance s t = Some h ->
               (h < Screen.created s)%nat /\ ~ In h (Screen.closed s)) /\
  (forall t1 t2 h, Screen.mss_instance s t1 = Some h ->
                   Screen.mss_instance s t2 = Some h -> t1 = t2) /\
  (forall h, In h (Screen.closed s) -> (h < Screen.created s)%nat).

(* ================================================================== *)
(** * The rest of [src/gui.py]: presets, the area test and stopping *)

Module Desk.

(** What the status line says after a preset operation. *)
Inductive preset_notice : Type :=
| PresetSaved (name : String.string)
| PresetLoaded (name : String.string)
| PresetDeleted (name : String.string).

(** What these operations show, besides the effects of the functions
    above. *)
Inductive desk_effect : Type :=
| Shown (e : effect)
| PresetNotFound (name : String.string)
| CouldNotSavePreset
| CouldNotDeletePreset
| NoSelection
| CoordinatesWarning
| ScreenshotWarning (black_percentage : pyfloat)
| FailedToTakeScreenshot
| CouldNotTakeScreenshot
| ShowScreenshot.

(** The application with its [ConfigManager]. [notice] is the status line
    when a preset operation wrote it last; otherwise the status line is
    the [status] of the window. *)
Record desk : Type := MkDesk {
  window : app;
  notice : option preset_notice;
  manager : Store.manager
}.

Definition status_var (d : desk) : status_msg + preset_notice :=
  match notice d with
  | Some n => inr n
  | None => inl (status (window d))
  end.

(** [PokemonRadarGUI.__init__] with the two files. *)
Definition startup (presets_file : option Store.preset_dict)
  (config_file : option ConfigManager.config_data) : desk :=
  MkDesk (Gui.init config_file) None (Store.open presets_file config_file).

Definition set_form (f : form_vars) (a : app) : app :=
  App (monitoring a) (monitor_thread a) (consecutive_detections a)
      (config a) f (status a).

Definition written {A : Type} (w : Store.write A) : bool :=
  match w with
  | Store.Written => true
  | Store.WriteFailed _ => false
  end.

(** [update_monitor_area] with the file it writes: the window changes as
    in [Gui.update_monitor_area], and when the entry fields are valid the
    configuration file is written. *)
Definition update_area (w : Store.write ConfigManager.config_data)
  (d : desk) : desk * list effect :=
  let '(a, shown) := Gui.update_monitor_area (written w) (window d) in
  if fst (validate_inputs (window d)) then
    let m := fst (Store.save_config_to_file w (config a) (manager d)) in
    (MkDesk a (if written w then None else notice d) m, shown)
  else (MkDesk a (notice d) (manager d), shown).

(** [not preset] for a dict: it has no key. *)
Definition is_empty (p : Store.preset) : bool :=
  match ConfigManager.d_x p, ConfigManager.d_y p, ConfigManager.d_width p,
        ConfigManager.d_height p, ConfigManager.d_white_threshold p,
        ConfigManager.d_blue_threshold p, ConfigManager.d_check_interval p with
  | None, None, None, None, None, None, None => true
  | _, _, _, _, _, _, _ => false
  end.

(** The seven [..._var.set(str(preset[key]))] of [load_preset], in order;
    the first missing key raises [KeyError] and the fields set before it
    stay set. The flag tells whether all seven were set. *)
Definition fill_form (p : Store.preset) (f : form_vars) : form_vars * bool :=
  match ConfigManager.d_x p with
  | None => (f, false)
  | Some x =>
  let f := Form (Some x) (y_var f) (width_var f) (height_var f)
                (threshold_var f) (blue_threshold_var f) (interval_var f) in
  match ConfigManager.d_y p with
  | None => (f, false)
  | Some y =>
  let f := Form (x_var f) (Some y) (width_var f) (height_var f)
                (threshold_var f) (blue_threshold_var f) (interval_var f) in
  match ConfigManager.d_width p with
  | None => (f, false)
  | Some width =>
  let f := Form (x_var f) (y_var f) (Some width) (height_var f)
                (threshold_var f) (blue_threshold_var f) (interval_var f) in
  match ConfigManager.d_height p with
  | None => (f, false)
  | Some height =>
  let f := Form (x_var f) (y_var f) (width_var f) (Some height)
                (threshold_var f) (blue_threshold_var f) (interval_var f) in
  match ConfigManager.d_white_threshold p with
  | None => (f, false)
  | Some white_threshold =>
  let f := Form (x_var f) (y_var f) (width_var f) (height_var f)
                (Some white_threshold) (blue_threshold_var f) (interval_var f) in
  match ConfigManager.d_blue_threshold p with
  | None => (f, false)
  | Some blue_threshold =>
  let f := Form (x_var f) (y_var f) (width_var f) (height_var f)
                (threshold_var f) (Some blue_threshold) (interval_var f) in
  match ConfigManager.d_check_interval p with
  | None => (f, false)
  | Some check_interval =>
  (Form (x_var f) (y_var f) (width_var f) (height_var f)
        (threshold_var f) (blue_threshold_var f) (Some check_interval), true)
  end end end end end end end.

(** [load_preset]; the last component tells whether it raised. *)
Definition load_preset (w : Store.write ConfigManager.config_data)
  (preset_name : String.string) (d : desk) : desk * list desk_effect * bool :=
  match Store.get_preset preset_name (manager d) with
  | None => (d, [PresetNotFound preset_name], false)
  | Some p =>
      if is_empty p then (d, [PresetNotFound preset_name], false)
      else
        let '(f, complete) := fill_form p (form (window d)) in
        let d := MkDesk (set_form f (window d)) (notice d) (manager d) in
        if complete then
          let '(d, shown) := update_area w d in
          (MkDesk (window d) (Some (PresetLoaded preset_name)) (manager d),
           map Shown shown, false)
        else (d, [], true)
  end.

(** [save_current_as_preset]; [preset_name] is the answer of the name
    dialog ([None] when cancelled), [overwrite] the answer to the
    question asked when the name exists. *)
Definition save_current_as_preset (w : Store.write ConfigManager.config_data)
  (preset_name : option String.string) (overwrite : bool)
  (w_presets : Store.write Store.preset_dict) (d : desk)
  : desk * list desk_effect :=
  let '(d, shown) := update_area w d in
  match preset_name with
  | None => (d, map Shown shown)
  | Some name =>
      if String.eqb name String.EmptyString then (d, map Shown shown)
      else if Store.dict_contains name (Store.presets (manager d))
              && negb overwrite then (d, map Shown shown)
      else
        match Store.add_preset w_presets name (config (window d)) (manager d) with
        | (m, Returns _) =>
            (MkDesk (window d) (Some (PresetSaved name)) m, map Shown shown)
        | (m, Raises) =>
            (MkDesk (window d) (notice d) m,
             map Shown shown ++ [CouldNotSavePreset])
        end
  end.

(** [delete_selected_preset]; [selected] is what the dropdown shows,
    [confirm] the answer to the question. *)
Definition delete_selected_preset (selected : String.string) (confirm : bool)
  (w_presets : Store.write Store.preset_dict) (d : desk)
  : desk * list desk_effect :=
  if String.eqb selected String.EmptyString then (d, [NoSelection])
  else if confirm then
    match Store.delete_preset w_presets selected (manager d) with
    | (m, Returns _) =>
        (MkDesk (window d) (Some (PresetDeleted selected)) m, [])
    | (m, Raises) =>
        (MkDesk (window d) (notice d) m, [CouldNotDeletePreset])
    end
  else (d, []).

(** [on_preset_selected]. *)
Definition on_preset_selected (w : Store.write ConfigManager.config_data)
  (selected : String.string) (d : desk) : desk * list desk_effect * bool :=
  if negb (String.eqb selected String.EmptyString)
     && Store.dict_contains selected (Store.presets (manager d))
  then load_preset w selected d
  else (d, [], false).

(** [test_area], given what [get_screen_size] reports. *)
Definition test_area (w : Store.write ConfigManager.config_data)
  (screen_width screen_height : Z) (grab : Monitor.grabber) (d : desk)
  : desk * list desk_effect :=
  let '(ok, shown) := validate_inputs (window d) in
  if negb ok then (d, map Shown shown)
  else
    let '(d, shown) := update_area w d in
    let c := config (window d) in
    let warned :=
      if ((Config.x c <? - screen_width) || (Config.x c >? screen_width * 2) ||
          (Config.y c <? 0) || (Config.y c >? screen_height))%Z
      then [CoordinatesWarning] else [] in
    match Monitor.take_screenshot grab (Config.x c) (Config.y c)
            (Config.width c) (Config.height c) with
    | Raises => (d, map Shown shown ++ warned ++ [CouldNotTakeScreenshot])
    | Returns None => (d, map Shown shown ++ warned ++ [FailedToTakeScreenshot])
    | Returns (Some screenshot) =>
        let '(is_valid, black_percentage) :=
          Monitor.analyze_screenshot_quality screenshot in
        (d, map Shown shown ++ warned
            ++ (if negb is_valid then [ScreenshotWarning black_percentage] else [])
            ++ [ShowScreenshot])
    end.

(** [start_monitoring] with the file [update_monitor_area] writes. *)
Definition start_session (w : Store.write ConfigManager.config_data)
  (screen_width screen_height : Z) (grab : Monitor.grabber) (d : desk)
  : desk * list effect :=
  if negb (monitoring (window d)) then
    let '(is_valid, message) :=
      validate_configuration screen_width screen_height grab (window d) in
    if negb is_valid then
      (d, [ShowError (match message with Some m => m | None => ValidationFailed end)])
    else
      let '(d, shown) := update_area w d in
      let a := set_monitoring true (window d) in
      let a := set_monitor_thread (Some WorkerThread) a in
      (MkDesk (set_status MonitoringStarted a) None (manager d),
       shown ++ [StartThread])
  else (d, []).

(** [stop_monitoring] called by the main thread, as the stop button and
    [on_closing] do. *)
Definition stop_session (d : desk) : desk :=
  let '(st, _, c) := Gui.stop_monitoring MainThread (Loop (window d) 0) in
  MkDesk (gui st) (match c with Raise => notice d | _ => None end) (manager d).

(** What the operator does, with the answers of the dialogs and the
    outcomes of the writes and captures it leads to. *)
Inductive action : Type :=
| TypeFields (f : form_vars)
| UpdateArea (w : Store.write ConfigManager.config_data)
| SavePreset (w : Store.write ConfigManager.config_data)
             (preset_name : option String.string) (overwrite : bool)
             (w_presets : Store.write Store.preset_dict)
| SelectPreset (w : Store.write ConfigManager.config_data)
               (selected : String.string)
| DeletePreset (selected : String.string) (confirm : bool)
               (w_presets : Store.write Store.preset_dict)
| TestArea (w : Store.write ConfigManager.config_data)
           (screen_width screen_height : Z) (grab : Monitor.grabber)
| Start (w : Store.write ConfigManager.config_data)
        (screen_width screen_height : Z) (grab : Monitor.grabber)
| Stop.

Definition act (a : action) (d : desk) : desk :=
  match a with
  | TypeFields f => MkDesk (set_form f (window d)) (notice d) (manager d)
  | UpdateArea w => fst (update_area w d)
  | SavePreset w preset_name overwrite w_presets =>
      fst (save_current_as_preset w preset_name overwrite w_presets d)
  | SelectPreset w selected => fst (fst (on_preset_selected w selected d))
  | DeletePreset selected confirm w_presets =>
      fst (delete_selected_preset selected confirm w_presets d)
  | TestArea w screen_width screen_height grab =>
      fst (test_area w screen_width screen_height grab d)
  | Start w screen_width screen_height grab =>
      fst (start_session w screen_width screen_height grab d)
  | Stop => stop_session d
  end.

(** The actions of a session, oldest first. *)
Definition acts (actions : list action) (d : desk) : desk :=
  fold_left (fun d a => act a d) actions d.

(** Every write of a file an action leads to succeeds. *)
Definition writes_succeed (a : action) : bool :=
  match a with
  | UpdateArea w | SelectPreset w _ | TestArea w _ _ _ | Start w _ _ _ =>
      written w
  | SavePreset w _ _ w_presets => written w && written w_presets
  | DeletePreset _ _ w_presets => written w_presets
  | TypeFields _ | Stop => true
  end.

End Desk.

(** The files hold what the session holds. *)
Definition in_step (d : Desk.desk) : Prop :=
  Store.load_config (Desk.manager d) = config (Desk.window d) /\
  Store.load_presets (Store.presets_on_disk (Desk.manager d))
  = Store.presets (Desk.manager d).

(* ================================================================== *)
(** * Counting and percentages *)

Lemma percentage_full (n : nat) : (0 < n)%nat -> percentage n n == 100.
Proof.
  intros Hn. unfold percentage.
  assert (H : ~ inject_Z (Z.of_nat n) == 0).
  { change 0 with (inject_Z 0). rewrite inject_Z_injective. lia. }
  field. exact H.
Qed.

Lemma percentage_zero (n : nat) : percentage 0 n == 0.
Proof. unfold percentage. simpl. unfold Qdiv. ring. Qed.

Lemma percentage_le (a b n : nat) :
  (a <= b)%nat -> percentage a n <= percentage b n.
Proof.
  intros H. unfold percentage.
  apply Qmult_le_compat_r; [| discriminate].
  unfold Qdiv. apply Qmult_le_compat_r.
  - rewrite <- Zle_Qle. lia.
  - destruct n; simpl; [discriminate|]. unfold Qinv. simpl. discriminate.
Qed.

Lemma percentage_le_iff (a n : nat) (k : Z) :
  (0 < n)%nat ->
  (percentage a n <= inject_Z k <-> (100 * Z.of_nat a <= k * Z.of_nat n)%Z).
Proof.
  intros Hn. unfold percentage.
  generalize (Z.of_nat a); intros za.
  destruct (Z.of_nat n) as [|p|p] eqn:E; try lia.
  unfold Qle, Qdiv, Qmult, Qinv, inject_Z; cbn [Qnum Qden].
  rewrite Pos.mul_1_r. lia.
Qed.

Lemma py_true_divide_pos (a n : nat) :
  (0 < n)%nat ->
  py_true_divide a n = Some (inject_Z (Z.of_nat a) / inject_Z (Z.of_nat n)).
Proof. destruct n; [lia | reflexivity]. Qed.

Lemma np_true_divide_pos (a n : nat) :
  (0 < n)%nat ->
  np_true_divide a n = Fin (inject_Z (Z.of_nat a) / inject_Z (Z.of_nat n)).
Proof. destruct n; [lia | reflexivity]. Qed.

Lemma pixels_length (image : Image) :
  length (pixels image) = total_pixels image.
Proof.
  unfold pixels, total_pixels.
  rewrite flat_map_constant_length with (c := img_width image).
  - now rewrite length_seq.
  - intros row _. now rewrite length_map, length_seq.
Qed.

Lemma in_pixels (image : Image) (p : pixel) :
  In p (pixels image) <->
  exists col row, (col < img_width image)%nat /\ (row < img_height image)%nat /\
                  p = getpixel image col row.
Proof.
  unfold pixels. rewrite in_flat_map. split.
  - intros (row & Hrow & Hp). apply in_map_iff in Hp as (col & <- & Hcol).
    apply in_seq in Hrow, Hcol. exists col, row. repeat split; lia.
  - intros (col & row & Hc & Hr & ->). exists row. split.
    + apply in_seq. lia.
    + apply in_map_iff. exists col. split; [reflexivity | apply in_seq; lia].
Qed.

Lemma every_pixel_Forall (P : pixel -> Prop) (image : Image) :
  every_pixel P image <-> Forall P (pixels image).
Proof.
  rewrite Forall_forall. unfold every_pixel. split.
  - intros H p Hp. apply in_pixels in Hp as (col & row & Hc & Hr & ->). auto.
  - intros H col row Hc Hr. apply H, in_pixels. eauto.
Qed.

Lemma count_nonzero_le_length (mask : list bool) :
  (count_nonzero mask <= length mask)%nat.
Proof. induction mask as [|[] rest IH]; simpl; lia. Qed.

Lemma count_nonzero_all (A : Type) (test : A -> bool) (l : list A) :
  Forall (fun a => test a = true) l ->
  count_nonzero (map test l) = length l.
Proof.
  induction 1 as [|a l Ha _ IH]; simpl; [reflexivity|].
  now rewrite Ha, IH.
Qed.

Lemma count_nonzero_none (A : Type) (test : A -> bool) (l : list A) :
  Forall (fun a => test a = false) l ->
  count_nonzero (map test l) = 0%nat.
Proof.
  induction 1 as [|a l Ha _ IH]; simpl; [reflexivity|].
  now rewrite Ha, IH.
Qed.

Lemma count_nonzero_mono (A : Type) (test1 test2 : A -> bool) (l : list A) :
  (forall a, test1 a = true -> test2 a = true) ->
  (count_nonzero (map test1 l) <= count_nonzero (map test2 l))%nat.
Proof.
  intros Himp. induction l as [|a l IH]; simpl; [lia|].
  destruct (test1 a) eqn:E1.
  - rewrite (Himp a E1). lia.
  - destruct (test2 a); lia.
Qed.

Lemma count_pixels_all (test : pixel -> bool) (image : Image) :
  every_pixel (fun p => test p = true) image ->
  count_pixels test image = total_pixels image.
Proof.
  intros H. unfold count_pixels.
  rewrite count_nonzero_all, pixels_length; [reflexivity|].
  now apply every_pixel_Forall.
Qed.

Lemma count_pixels_none (test : pixel -> bool) (image : Image) :
  every_pixel (fun p => test p = false) image ->
  count_pixels test image = 0%nat.
Proof.
  intros H. unfold count_pixels.
  apply count_nonzero_none. now apply every_pixel_Forall.
Qed.

Lemma total_pixels_pos (image : Image) :
  (0 < img_width image)%nat -> (0 < img_height image)%nat ->
  (0 < total_pixels image)%nat.
Proof. unfold total_pixels. nia. Qed.

(** The classifiers as percentages of counted pixels. *)

Lemma detect_blue_pixels_eq (image : Image) :
  (0 < total_pixels image)%nat ->
  Monitor.detect_blue_pixels image =
  percentage (count_pixels (Monitor.inRange Monitor.BLUE_LOWER Monitor.BLUE_UPPER) image)
             (total_pixels image).
Proof.
  intros H. unfold Monitor.detect_blue_pixels.
  now rewrite py_true_divide_pos.
Qed.

Lemma detect_white_pixels_eq (rgb2gray : pixel -> Z) (image : Image) (t : Z) :
  (0 < total_pixels image)%nat ->
  Monitor.detect_white_pixels rgb2gray image t =
  percentage (count_pixels (fun p => (t <=? rgb2gray p)%Z) image)
             (total_pixels image).
Proof.
  intros H. unfold Monitor.detect_white_pixels.
  rewrite py_true_divide_pos by assumption.
  unfold percentage, count_pixels. now rewrite map_map.
Qed.

Lemma analyze_screenshot_quality_eq (image : Image) :
  (0 < total_pixels image)%nat ->
  Monitor.analyze_screenshot_quality image =
  (Qle_bool (percentage (count_pixels Monitor.all_below_10 image)
                        (total_pixels image)) 95,
   Fin (percentage (count_pixels Monitor.all_below_10 image)
                   (total_pixels image))).
Proof.
  intros H. unfold Monitor.analyze_screenshot_quality.
  now rewrite np_true_divide_pos.
Qed.

(* ================================================================== *)
(** * The image classifier *)

Lemma all_below_10_iff (p : pixel) :
  Monitor.all_below_10 p = true <->
  (chan_r p < 10 /\ chan_g p < 10 /\ chan_b p < 10)%Z.
Proof.
  unfold Monitor.all_below_10.
  rewrite !andb_true_iff, !Z.ltb_lt. tauto.
Qed.

Lemma inRange_blue_iff (p : pixel) :
  Monitor.inRange Monitor.BLUE_LOWER Monitor.BLUE_UPPER p = true <->
  in_rgb_band p.
Proof.
  unfold Monitor.inRange, in_rgb_band. cbn [Monitor.BLUE_LOWER Monitor.BLUE_UPPER chan_r chan_g chan_b].
  rewrite !andb_true_iff, !Z.leb_le. tauto.
Qed.

Lemma Qle_bool_false_iff (a b : Q) : Qle_bool a b = false <-> ~ a <= b.
Proof.
  rewrite <- Qle_bool_iff. destruct (Qle_bool a b); split; congruence.
Qed.

Lemma percentage_nonneg (a n : nat) : 0 <= percentage a n.
Proof.
  rewrite <- (percentage_zero n). apply percentage_le. lia.
Qed.

Lemma up_to_rounding_exact (value exact : Q) :
  0 <= exact -> value == exact -> up_to_rounding value exact.
Proof.
  intros Hpos Heq. unfold up_to_rounding. rewrite Heq.
  assert (Hroom : 0 <= exact * (1 # 2251799813685248))
    by (apply Qmult_le_0_compat; [assumption | discriminate]).
  split.
  - apply Qle_minus_iff.
    setoid_replace (exact + - (exact - exact * (1 # 2251799813685248)))
      with (exact * (1 # 2251799813685248)) by ring.
    exact Hroom.
  - apply Qle_minus_iff.
    setoid_replace (exact + exact * (1 # 2251799813685248) + - exact)
      with (exact * (1 # 2251799813685248)) by ring.
    exact Hroom.
Qed.

(** C7. On a frame with at least one pixel, the quality check counts the
    pixels whose three channels are all below 10, reports
    [black_pixels / total_pixels * 100], up to the rounding of the two
    double operations, as the black percentage and
    [black_percentage <= 95] as validity; an all-black frame gives 100 and
    invalid, an all-white frame gives 0 and valid, both exactly. *)
Theorem quality_check (image : Image) :
  (0 < img_width image)%nat -> (0 < img_height image)%nat ->
  (forall p, Monitor.all_below_10 p = true <->
             (chan_r p < 10 /\ chan_g p < 10 /\ chan_b p < 10)%Z) /\
  exists black_percentage : Q,
    snd (Monitor.analyze_screenshot_quality image) = Fin black_percentage /\
    up_to_rounding black_percentage
      (inject_Z (Z.of_nat (count_pixels Monitor.all_below_10 image))
       / inject_Z (Z.of_nat (img_height image * img_width image)) * 100) /\
    (fst (Monitor.analyze_screenshot_quality image) = true
     <-> black_percentage <= 95) /\
    (every_pixel (eq BLACK) image ->
     black_percentage == 100 /\
     fst (Monitor.analyze_screenshot_quality image) = false) /\
    (every_pixel (eq WHITE) image ->
     black_percentage == 0 /\
     fst (Monitor.analyze_screenshot_quality image) = true).
Proof.
  intros Hw Hh. split; [exact all_below_10_iff|].
  pose proof (total_pixels_pos image Hw Hh) as Hpos.
  rewrite (analyze_screenshot_quality_eq image Hpos). cbn [fst snd].
  eexists. split; [reflexivity|].
  split; [apply up_to_rounding_exact;
          [apply percentage_nonneg | reflexivity]|].
  split; [apply Qle_bool_iff|]. split.
  - intros Hblack.
    rewrite count_pixels_all.
    + pose proof (percentage_full Hpos) as E. split; [exact E|].
      apply Qle_bool_false_iff. rewrite E. intros H. now apply H.
    + intros col row Hc Hr. now rewrite <- (Hblack col row Hc Hr).
  - intros Hwhite.
    rewrite count_pixels_none.
    + pose proof (percentage_zero (total_pixels image)) as E. split; [exact E|].
      apply Qle_bool_iff. rewrite E. discriminate.
    + intros col row Hc Hr. now rewrite <- (Hwhite col row Hc Hr).
Qed.

Lemma quality_check_witness :
  (0 < img_width (solid 2 3 BLACK))%nat /\
  (0 < img_height (solid 2 3 BLACK))%nat /\
  exists black_percentage : Q,
    snd (Monitor.analyze_screenshot_quality (solid 2 3 BLACK))
      = Fin black_percentage /\
    black_percentage == 100.
Proof.
  split; [simpl; lia|]. split; [simpl; lia|].
  destruct (@quality_check (solid 2 3 BLACK)) as (_ & q & Hsnd & _ & _ & Hblack & _);
    [simpl; lia | simpl; lia |].
  exists q. split; [exact Hsnd|].
  apply Hblack. intros col row _ _. reflexivity.
Defined.

(** C9. For a fixed frame the white percentage does not grow when the
    threshold is raised. *)
Theorem white_ratio_antitone (rgb2gray : pixel -> Z) (image : Image) (t1 t2 : Z) :
  (t1 <= t2)%Z ->
  Monitor.detect_white_pixels rgb2gray image t2
  <= Monitor.detect_white_pixels rgb2gray image t1.
Proof.
  intros Ht. unfold Monitor.detect_white_pixels.
  destruct (total_pixels image) as [|n] eqn:En; cbn [py_true_divide].
  - apply Qle_refl.
  - rewrite !map_map.
    apply (@percentage_le _ _ (S n)).
    apply count_nonzero_mono. intros p. rewrite !Z.leb_le. lia.
Qed.

Lemma white_ratio_antitone_witness :
  (200 <= 255)%Z /\
  Monitor.detect_white_pixels cv_rgb2gray (solid 2 2 (RGB 230 230 230)) 255
  <= Monitor.detect_white_pixels cv_rgb2gray (solid 2 2 (RGB 230 230 230)) 200.
Proof.
  split; [lia|].
  apply (@white_ratio_antitone cv_rgb2gray (solid 2 2 (RGB 230 230 230)) 200 255).
  lia.
Defined.

(** C1, as the code has it. [detect_blue_pixels] applies the band to the
    red, green and blue channels of the frame, without a conversion: on a
    frame with at least one pixel it is the percentage of pixels with
    R in [0,15], G in [70,155] and B in [75,155], up to the rounding of
    the two double operations; it is exactly 0 when no pixel is in that
    band and exactly 100 when all are. *)
Theorem blue_ratio_rgb_band (image : Image) :
  (0 < img_width image)%nat -> (0 < img_height image)%nat ->
  (forall p, Monitor.inRange Monitor.BLUE_LOWER Monitor.BLUE_UPPER p = true
             <-> in_rgb_band p) /\
  up_to_rounding (Monitor.detect_blue_pixels image)
    (inject_Z (Z.of_nat (count_pixels
                           (Monitor.inRange Monitor.BLUE_LOWER Monitor.BLUE_UPPER)
                           image))
     / inject_Z (Z.of_nat (img_height image * img_width image)) * 100) /\
  (every_pixel (fun p => ~ in_rgb_band p) image ->
   Monitor.detect_blue_pixels image == 0) /\
  (every_pixel in_rgb_band image ->
   Monitor.detect_blue_pixels image == 100).
Proof.
  intros Hw Hh. split; [exact inRange_blue_iff|].
  pose proof (total_pixels_pos image Hw Hh) as Hpos.
  rewrite (detect_blue_pixels_eq image Hpos).
  split; [apply up_to_rounding_exact;
          [apply percentage_nonneg | reflexivity]|]. split.
  - intros Hnone. rewrite count_pixels_none; [apply percentage_zero|].
    intros col row Hc Hr. specialize (Hnone col row Hc Hr). cbv beta in Hnone.
    destruct (Monitor.inRange _ _ _) eqn:E; [|reflexivity].
    exfalso. now apply Hnone, inRange_blue_iff.
  - intros Hall. rewrite count_pixels_all; [now apply percentage_full|].
    intros col row Hc Hr. apply inRange_blue_iff. auto.
Qed.

Lemma blue_ratio_rgb_band_witness :
  (0 < img_width (solid 4 3 TEAL))%nat /\
  (0 < img_height (solid 4 3 TEAL))%nat /\
  Monitor.detect_blue_pixels (solid 4 3 TEAL) == 100.
Proof.
  split; [simpl; lia|]. split; [simpl; lia|].
  apply (@blue_ratio_rgb_band (solid 4 3 TEAL)); [simpl; lia | simpl; lia |].
  intros col row _ _. unfold in_rgb_band. simpl. lia.
Defined.

(** C1 as stated fails. A teal frame has no pixel whose (H,S,V) is in the
    band, yet its blue percentage is 100; a tan frame has every pixel's
    (H,S,V) in the band, yet its blue percentage is 0. *)
Lemma blue_ratio_hsv_counterexample :
  (every_pixel (fun p => SpecHSV.hsv_in_band p = false) (solid 1 1 TEAL) /\
   SpecHSV.blue_ratio_hsv (solid 1 1 TEAL) == 0 /\
   Monitor.detect_blue_pixels (solid 1 1 TEAL) == 100) /\
  (every_pixel (fun p => SpecHSV.hsv_in_band p = true) (solid 1 1 TAN) /\
   SpecHSV.blue_ratio_hsv (solid 1 1 TAN) == 100 /\
   Monitor.detect_blue_pixels (solid 1 1 TAN) == 0).
Proof.
  repeat split; try (intros col row _ _); reflexivity.
Qed.

(* ================================================================== *)
(** * One cycle of the monitoring loop *)

(** What one cycle does to the session, by what it finds. *)
Lemma cycle_spec (rgb2gray : pixel -> Z) (me : thread_id)
      (shot : outcome (option Image)) (st : loop_state) :
  let r := cycle rgb2gray me shot st in
  let f := classify rgb2gray (config (gui st)) shot in
  let n := consecutive_detections (gui st) in
  config (gui (state_after r)) = config (gui st) /\
  monitor_thread (gui (state_after r)) = monitor_thread (gui st) /\
  consecutive_detections (gui (state_after r))
    = match f with Detected => S n | NotDetected => 0%nat | _ => n end /\
  alerts (effects_of r)
    = (if is_detected f && (Config.MIN_CONSECUTIVE_DETECTIONS <=? S n)%nat
       then 1%nat else 0%nat) /\
  (goes_on (ending r) = true ->
   monitoring (gui (state_after r)) = monitoring (gui st)) /\
  (goes_on (ending r) = false ->
   monitoring (gui (state_after r)) = false /\
   terminal_status (status (gui (state_after r))) = true /\
   is_failure f = true) /\
  (is_failure f = true -> goes_on (ending r) = true ->
   (error_count st < error_count (state_after r) < max_errors)%nat).
Proof.
  destruct st as [a ec]. destruct shot as [[img|]|]; unfold_stmt.
  - destruct (Monitor.analyze_screenshot_quality img) as [is_valid bp].
    split_ifs; close_cases.
  - split_ifs; leb_facts; close_cases.
  - split_ifs; leb_facts; close_cases.
Qed.

Lemma is_failure_classify (rgb2gray : pixel -> Z) (c : Config.MonitorConfig)
      (shot : outcome (option Image)) :
  is_failure (classify rgb2gray c shot) = capture_failed shot.
Proof.
  destruct shot as [[img|]|]; try reflexivity.
  unfold classify. now split_ifs.
Qed.

(** * Runs of the loop *)

Lemma monitor_loop_cons (rgb2gray : pixel -> Z) (me : thread_id)
      (shot : outcome (option Image)) (rest : list (outcome (option Image)))
      (st : loop_state) :
  monitoring (gui st) = true ->
  let r := cycle rgb2gray me shot st in
  monitor_loop rgb2gray me (shot :: rest) st =
  if goes_on (ending r) then
    (final_state (monitor_loop rgb2gray me rest (state_after r)),
     effects_of r :: trace_of (monitor_loop rgb2gray me rest (state_after r)),
     exit_of (monitor_loop rgb2gray me rest (state_after r)))
  else (state_after r, [effects_of r],
        match ending r with Return => Left | _ => Crashed end).
Proof.
  intros Hrun. cbn [monitor_loop]. rewrite Hrun.
  cbv zeta. destruct (cycle rgb2gray me shot st) as [[st1 eff] c].
  unfold state_after, effects_of, ending, final_state, trace_of, exit_of.
  cbn [fst snd].
  destruct c; cbn [goes_on]; try reflexivity;
    now destruct (monitor_loop rgb2gray me rest st1) as [[st2 tr] e].
Qed.

Lemma monitor_loop_stopped (rgb2gray : pixel -> Z) (me : thread_id)
      (shots : list (outcome (option Image))) (st : loop_state) :
  monitoring (gui st) = false ->
  monitor_loop rgb2gray me shots st = (st, [], Left).
Proof. intros H. destruct shots; cbn [monitor_loop]; now rewrite H. Qed.

Lemma total_alerts_cons (effects : list effect) (trace : list (list effect)) :
  total_alerts (effects :: trace) = (alerts effects + total_alerts trace)%nat.
Proof.
  unfold total_alerts, alerts. cbn [concat].
  now rewrite filter_app, length_app.
Qed.

(** Cycles that do not detect both conditions never sound the alert. *)
Lemma no_detection_no_alert (rgb2gray : pixel -> Z) (me : thread_id)
      (shots : list (outcome (option Image))) :
  forall st : loop_state,
  Forall (fun shot => is_detected (classify rgb2gray (config (gui st)) shot) = false)
         shots ->
  total_alerts (trace_of (monitor_loop rgb2gray me shots st)) = 0%nat.
Proof.
  induction shots as [|shot rest IH]; intros st Hnone.
  - cbn [monitor_loop]. now destruct (monitoring (gui st)).
  - destruct (monitoring (gui st)) eqn:Hrun;
      [| now rewrite monitor_loop_stopped].
    inversion Hnone as [|? ? Hshot Hrest]; subst.
    rewrite monitor_loop_cons by assumption. cbv zeta.
    destruct (cycle_spec rgb2gray me shot st) as (Hcfg & _ & _ & Halert & _).
    cbv zeta in Hcfg, Halert. rewrite Hshot in Halert. cbn [andb] in Halert.
    destruct (goes_on _); unfold trace_of; cbn [fst snd];
      rewrite total_alerts_cons, Halert; [| reflexivity].
    cbn [Nat.add]. apply IH. now rewrite Hcfg.
Qed.

(** A cycle that captured a frame goes on to the next pass. *)
Lemma cycle_goes_on (rgb2gray : pixel -> Z) (me : thread_id)
      (shot : outcome (option Image)) (st : loop_state) :
  is_failure (classify rgb2gray (config (gui st)) shot) = false ->
  goes_on (ending (cycle rgb2gray me shot st)) = true.
Proof.
  intros Hf.
  destruct (cycle_spec rgb2gray me shot st) as (_ & _ & _ & _ & _ & Hexit & _).
  cbv zeta in Hexit.
  destruct (goes_on _); [reflexivity|].
  destruct (Hexit eq_refl) as (_ & _ & Hfail). congruence.
Qed.

(** The run after one detecting cycle. *)
Lemma monitor_loop_detected (rgb2gray : pixel -> Z) (me : thread_id)
      (shot : outcome (option Image)) (rest : list (outcome (option Image)))
      (st : loop_state) :
  monitoring (gui st) = true ->
  classify rgb2gray (config (gui st)) shot = Detected ->
  let r := cycle rgb2gray me shot st in
  monitor_loop rgb2gray me (shot :: rest) st =
    (final_state (monitor_loop rgb2gray me rest (state_after r)),
     effects_of r :: trace_of (monitor_loop rgb2gray me rest (state_after r)),
     exit_of (monitor_loop rgb2gray me rest (state_after r))) /\
  monitoring (gui (state_after r)) = true /\
  config (gui (state_after r)) = config (gui st) /\
  consecutive_detections (gui (state_after r))
    = S (consecutive_detections (gui st)) /\
  alerts (effects_of r)
    = (if (Config.MIN_CONSECUTIVE_DETECTIONS
           <=? S (consecutive_detections (gui st)))%nat then 1 else 0)%nat.
Proof.
  intros Hrun Hdet r.
  pose proof (monitor_loop_cons rgb2gray me shot rest st Hrun) as Hcons.
  pose proof (cycle_goes_on rgb2gray me shot st) as Hgo.
  destruct (cycle_spec rgb2gray me shot st) as (Hcfg & _ & Hn & Halert & Hmon & _).
  cbv zeta in Hcons, Hcfg, Hn, Halert, Hmon.
  rewrite Hdet in Hgo, Hn, Halert. cbn [is_failure is_detected andb] in *.
  specialize (Hgo eq_refl). fold r in Hgo, Hcons, Hcfg, Hn, Halert, Hmon.
  rewrite Hgo in Hcons. specialize (Hmon Hgo).
  repeat split; try assumption. congruence.
Qed.

(** C2. In a fresh session, one cycle with both conditions followed by
    cycles without them never sounds the alert; two such cycles in a row
    followed by cycles without them sound it exactly once, in the second
    cycle. *)
Theorem debounce (rgb2gray : pixel -> Z) (me : thread_id) (a : app)
        (hit1 hit2 : outcome (option Image))
        (rest : list (outcome (option Image))) :
  monitoring a = true ->
  classify rgb2gray (config a) hit1 = Detected ->
  classify rgb2gray (config a) hit2 = Detected ->
  Forall (fun shot => is_detected (classify rgb2gray (config a) shot) = false)
         rest ->
  total_alerts (trace_of (monitor_screen rgb2gray me (hit1 :: rest) a)) = 0%nat /\
  (let trace := trace_of (monitor_screen rgb2gray me (hit1 :: hit2 :: rest) a) in
   total_alerts trace = 1%nat /\
   alerts (nth 0 trace []) = 0%nat /\
   alerts (nth 1 trace []) = 1%nat).
Proof.
  intros Hrun Hhit1 Hhit2 Hrest. unfold monitor_screen.
  set (st0 := Loop (set_consecutive_detections 0 a) 0).
  assert (Hrun0 : monitoring (gui st0) = true) by exact Hrun.
  assert (Hcfg0 : config (gui st0) = config a) by reflexivity.
  split.
  - destruct (monitor_loop_detected rgb2gray me hit1 rest st0 Hrun0 Hhit1)
      as (-> & _ & Hcfg1 & _ & Ha1).
    assert (Hquiet : total_alerts (trace_of (monitor_loop rgb2gray me rest
                       (state_after (cycle rgb2gray me hit1 st0)))) = 0%nat)
      by (apply no_detection_no_alert; now rewrite Hcfg1).
    unfold trace_of in *; cbn [fst snd] in *.
    now rewrite total_alerts_cons, Ha1, Hquiet.
  - destruct (monitor_loop_detected rgb2gray me hit1 (hit2 :: rest) st0 Hrun0 Hhit1)
      as (-> & Hrun1 & Hcfg1 & Hn1 & Ha1).
    set (st1 := state_after (cycle rgb2gray me hit1 st0)) in *.
    assert (Hhit2' : classify rgb2gray (config (gui st1)) hit2 = Detected)
      by now rewrite Hcfg1.
    destruct (monitor_loop_detected rgb2gray me hit2 rest st1 Hrun1 Hhit2')
      as (-> & _ & Hcfg2 & _ & Ha2).
    rewrite Hn1 in Ha2. cbn in Ha1, Ha2.
    assert (Hquiet : total_alerts (trace_of (monitor_loop rgb2gray me rest
                       (state_after (cycle rgb2gray me hit2 st1)))) = 0%nat)
      by (apply no_detection_no_alert; now rewrite Hcfg2, Hcfg1).
    cbv zeta. unfold trace_of in *; cbn [fst snd nth] in *.
    rewrite !total_alerts_cons, Ha1, Ha2, Hquiet.
    repeat split; reflexivity.
Qed.

Lemma debounce_witness :
  monitoring Samples.session = true /\
  total_alerts (trace_of (monitor_screen cv_rgb2gray WorkerThread
     [Samples.shot_hit; Samples.shot_hit; Samples.shot_miss; Samples.shot_black]
     Samples.session)) = 1%nat.
Proof.
  split; [reflexivity|].
  apply (@debounce cv_rgb2gray WorkerThread Samples.session
           Samples.shot_hit Samples.shot_hit
           [Samples.shot_miss; Samples.shot_black]);
    try reflexivity.
  repeat constructor.
Defined.

(** * The error budget *)




(* ================================================================== *)
(** * Sleeps and the detection counter *)




(** C5, as the code has it. A cycle that classifies its frame and does not
    find both conditions resets the counter; a cycle that finds both adds
    one; a cycle that ends before the classification (capture failed or
    raised, frame invalid) leaves the counter as it was. *)
Theorem consecutive_detections_update (rgb2gray : pixel -> Z) (me : thread_id)
        (shot : outcome (option Image)) (st : loop_state) :
  consecutive_detections (gui (state_after (cycle rgb2gray me shot st))) =
  match classify rgb2gray (config (gui st)) shot with
  | Detected => S (consecutive_detections (gui st))
  | NotDetected => 0%nat
  | CaptureRaised | CaptureFailed | FrameInvalid =>
      consecutive_detections (gui st)
  end.
Proof.
  destruct (cycle_spec rgb2gray me shot st) as (_ & _ & Hn & _).
  exact Hn.
Qed.

(** C5 as stated fails: with the counter at 1, a cycle whose frame is
    invalid and a cycle whose capture fails both leave it at 1; so a
    detection, an invalid frame and a detection sound the alert. *)
Lemma counter_kept_counterexample :
  let st := Loop (set_consecutive_detections 1 Samples.session) 0 in
  classify cv_rgb2gray Samples.cfg Samples.shot_black = FrameInvalid /\
  consecutive_detections
    (gui (state_after (cycle cv_rgb2gray WorkerThread Samples.shot_black st)))
  = 1%nat /\
  classify cv_rgb2gray Samples.cfg Samples.shot_none = CaptureFailed /\
  consecutive_detections
    (gui (state_after (cycle cv_rgb2gray WorkerThread Samples.shot_none st)))
  = 1%nat /\
  map alerts
      (trace_of (monitor_screen cv_rgb2gray WorkerThread
         [Samples.shot_hit; Samples.shot_black; Samples.shot_hit]
         Samples.session))
  = [0; 0; 1]%nat.
Proof. repeat split. Qed.

(* ================================================================== *)
(** * Screen capture *)








(* ================================================================== *)
(** * Starting a session *)

(** From Idle, [start_monitoring] starts the session as soon as the probe
    of [validate_configuration] passes, whatever [validate_inputs] says. *)
Lemma start_monitoring_after_probe
      (screen_width screen_height : Z) (grab : Monitor.grabber)
      (save_ok : bool) (a : app) :
  monitoring a = false ->
  fst (validate_configuration screen_width screen_height grab a) = true ->
  running (fst (start_monitoring screen_width screen_height grab save_ok a))
  = true.
Proof.
  intros Hidle Hprobe. unfold start_monitoring. rewrite Hidle. cbn [negb].
  destruct (validate_configuration _ _ _ _) as [is_valid message].
  cbn [fst] in Hprobe. subst is_valid. cbn [negb].
  now destruct (update_monitor_area save_ok a) as [a' shown].
Qed.

(** C6 fails on the code at a saved configuration with a white threshold
    of 300 on a 1920x1080 screen: [start_monitoring] shows the error of
    [validate_inputs] and still starts the worker with that
    configuration. *)
Theorem start_monitoring_runs_out_of_range :
  let result := start_monitoring 1920 1080 Samples.grab_white true BadFile.app0 in
  Config.white_threshold (config BadFile.app0) = 300%Z /\
  ranges_ok (config BadFile.app0) = false /\
  running BadFile.app0 = false /\
  running (fst result) = true /\
  config (fst result) = config BadFile.app0 /\
  snd result = [ShowError InvalidInput; StartThread].
Proof. vm_compute. repeat split. Qed.


(* ================================================================== *)
(** * More on the cycles of the loop *)

(** The cycle writes neither the configuration, nor the form, nor the
    thread handle. *)
Lemma cycle_keeps (rgb2gray : pixel -> Z) (me : thread_id)
      (shot : outcome (option Image)) (st : loop_state) :
  let r := cycle rgb2gray me shot st in
  config (gui (state_after r)) = config (gui st) /\
  form (gui (state_after r)) = form (gui st) /\
  monitor_thread (gui (state_after r)) = monitor_thread (gui st).
Proof.
  destruct st as [a ec]. destruct shot as [[img|]|]; unfold_stmt.
  - destruct (Monitor.analyze_screenshot_quality img) as [is_valid bp].
    split_ifs; close_cases.
  - split_ifs; close_cases.
  - split_ifs; close_cases.
Qed.

(** How the cycle that ends the loop leaves [monitor_screen]: by the
    exception of [Thread.join] when the loop runs in the thread the
    object holds, by [return] otherwise. *)
Lemma cycle_exit_kind (rgb2gray : pixel -> Z) (me : thread_id)
      (shot : outcome (option Image)) (st : loop_state) :
  let r := cycle rgb2gray me shot st in
  goes_on (ending r) = false ->
  if match monitor_thread (gui st) with
     | Some t => thread_eqb t me
     | None => false
     end
  then ending r = Raise /\ status (gui (state_after r)) = TooManyErrors
  else ending r = Return /\ status (gui (state_after r)) = MonitoringStopped.
Proof.
  destruct st as [a ec]. destruct shot as [[img|]|]; unfold_stmt.
  - destruct (Monitor.analyze_screenshot_quality img) as [is_valid bp].
    split_ifs; close_cases.
  - split_ifs; close_cases.
  - split_ifs; close_cases.
Qed.




(* ================================================================== *)
(** * More on the runs of the loop *)

Lemma monitor_loop_nil (rgb2gray : pixel -> Z) (me : thread_id) (st : loop_state) :
  monitoring (gui st) = true ->
  monitor_loop rgb2gray me [] st = (st, [], Exhausted).
Proof. intros H. cbn [monitor_loop]. now rewrite H. Qed.

(** A cycle after which the loop goes on, unfolded. *)
Lemma monitor_loop_step (rgb2gray : pixel -> Z) (me : thread_id)
      (shot : outcome (option Image)) (rest : list (outcome (option Image)))
      (st : loop_state) :
  monitoring (gui st) = true ->
  goes_on (ending (cycle rgb2gray me shot st)) = true ->
  let st1 := state_after (cycle rgb2gray me shot st) in
  final_state (monitor_loop rgb2gray me (shot :: rest) st)
    = final_state (monitor_loop rgb2gray me rest st1) /\
  trace_of (monitor_loop rgb2gray me (shot :: rest) st)
    = effects_of (cycle rgb2gray me shot st)
      :: trace_of (monitor_loop rgb2gray me rest st1) /\
  exit_of (monitor_loop rgb2gray me (shot :: rest) st)
    = exit_of (monitor_loop rgb2gray me rest st1).
Proof.
  intros Hrun Hgo. cbv zeta.
  rewrite monitor_loop_cons by assumption. cbv zeta. rewrite Hgo.
  repeat split.
Qed.

(** X1. From a fresh session, a run of cycles that all detect both
    conditions sounds the alert in every cycle but the first: the counter
    keeps growing after an alert. *)
Theorem alerts_accumulate (rgb2gray : pixel -> Z) (me : thread_id) (a : app)
        (hit : outcome (option Image)) (hits : list (outcome (option Image))) :
  monitoring a = true ->
  Forall (fun shot => classify rgb2gray (config a) shot = Detected) (hit :: hits) ->
  let r := monitor_screen rgb2gray me (hit :: hits) a in
  map alerts (trace_of r) = 0%nat :: map (fun _ => 1%nat) hits /\
  consecutive_detections (gui (final_state r)) = S (length hits).
Proof.
  intros Hrun Hall. inversion Hall as [|? ? Hhit Hhits]; subst.
  unfold monitor_screen.
  set (st0 := Loop (set_consecutive_detections 0 a) 0).
  destruct (@monitor_loop_detected rgb2gray me hit hits st0 Hrun Hhit)
    as (_ & Hrun1 & Hcfg1 & Hn1 & Ha1).
  assert (Hgo0 : goes_on (ending (cycle rgb2gray me hit st0)) = true)
    by (apply cycle_goes_on; change (config (gui st0)) with (config a);
        now rewrite Hhit).
  destruct (@monitor_loop_step rgb2gray me hit hits st0 Hrun Hgo0)
    as (Hf0 & Ht0 & _).
  cbv zeta. rewrite Hf0, Ht0. cbn [map].
  cbn in Ha1. rewrite Ha1.
  set (st1 := state_after (cycle rgb2gray me hit st0)) in *.
  assert (Hgen : forall shots st,
            monitoring (gui st) = true ->
            config (gui st) = config a ->
            (1 <= consecutive_detections (gui st))%nat ->
            Forall (fun shot => classify rgb2gray (config a) shot = Detected) shots ->
            map alerts (trace_of (monitor_loop rgb2gray me shots st))
              = map (fun _ => 1%nat) shots /\
            consecutive_detections (gui (final_state (monitor_loop rgb2gray me shots st)))
              = (consecutive_detections (gui st) + length shots)%nat).
  { induction shots as [|shot rest IH]; intros st Hr Hc Hn Hs.
    - rewrite monitor_loop_nil by assumption. cbn. split; [reflexivity | lia].
    - inversion Hs as [|? ? Hshot Hrest]; subst.
      rewrite <- Hc in Hshot.
      destruct (@monitor_loop_detected rgb2gray me shot rest st Hr Hshot)
        as (_ & Hr' & Hc' & Hn' & Ha').
      assert (Hgo : goes_on (ending (cycle rgb2gray me shot st)) = true)
        by (apply cycle_goes_on; now rewrite Hshot).
      destruct (@monitor_loop_step rgb2gray me shot rest st Hr Hgo)
        as (Hf & Ht & _).
      rewrite Hf, Ht. cbn [map length].
      destruct (IH (state_after (cycle rgb2gray me shot st)))
        as (IHa & IHn); [assumption | congruence | lia | assumption |].
      rewrite IHa, IHn, Hn', Ha'.
      destruct (consecutive_detections (gui st)) as [|n]; [lia|].
      split; [reflexivity | lia]. }
  destruct (Hgen hits st1) as (Ha & Hn);
    [assumption | now rewrite Hcfg1 | rewrite Hn1; lia | assumption |].
  rewrite Ha, Hn, Hn1. split; reflexivity.
Qed.

Lemma alerts_accumulate_witness :
  monitoring Samples.session = true /\
  map alerts (trace_of (monitor_screen cv_rgb2gray WorkerThread
                          Samples.five_hits Samples.session))
  = [0; 1; 1; 1; 1]%nat.
Proof.
  split; [reflexivity|].
  apply (@alerts_accumulate cv_rgb2gray WorkerThread Samples.session
           Samples.shot_hit
           [Samples.shot_hit; Samples.shot_hit; Samples.shot_hit; Samples.shot_hit]).
  - reflexivity.
  - repeat constructor.
Defined.





Lemma trace_of_triple (st : loop_state) (tr : list (list effect))
      (e : loop_exit) : trace_of (st, tr, e) = tr.
Proof. reflexivity. Qed.







(** The exit of a run of failed captures that uses up the budget. *)
Lemma failing_run_exit (rgb2gray : pixel -> Z) (me : thread_id)
      (more : list (outcome (option Image))) :
  forall (failures : list (outcome (option Image))) (st : loop_state),
  monitoring (gui st) = true ->
  Forall (fun shot => capture_failed shot = true) failures ->
  (error_count st < max_errors <= error_count st + length failures)%nat ->
  let r := monitor_loop rgb2gray me (failures ++ more) st in
  if match monitor_thread (gui st) with
     | Some t => thread_eqb t me
     | None => false
     end
  then exit_of r = Crashed /\ status (gui (final_state r)) = TooManyErrors
  else exit_of r = Left /\ status (gui (final_state r)) = MonitoringStopped.
Proof.
  induction failures as [|shot rest IH]; intros st Hrun Hfail Hec.
  - cbn [length] in Hec. lia.
  - inversion Hfail as [|? ? Hshot Hrest]; subst.
    cbn [List.app]. rewrite monitor_loop_cons by assumption. cbv zeta.
    destruct (cycle_spec rgb2gray me shot st)
      as (_ & Hthr & _ & _ & Hmon & _ & Herr).
    pose proof (cycle_exit_kind rgb2gray me shot st) as Hkind.
    cbv zeta in Hthr, Hmon, Herr, Hkind.
    rewrite is_failure_classify, Hshot in Herr.
    destruct (goes_on (ending (cycle rgb2gray me shot st))) eqn:Hgo.
    + specialize (Herr eq_refl eq_refl). specialize (Hmon eq_refl).
      unfold exit_of, final_state; cbn [fst snd].
      rewrite <- Hthr.
      apply (IH (state_after (cycle rgb2gray me shot st)));
        [congruence | assumption | cbn [length] in Hec; lia].
    + specialize (Hkind eq_refl).
      unfold exit_of, final_state; cbn [fst snd].
      destruct (match monitor_thread (gui st) with
                | Some t => thread_eqb t me
                | None => false
                end); destruct Hkind as (-> & ->); split; reflexivity.
Qed.

(** X5. When the error budget is used up in the thread that the object
    holds as [monitor_thread] (the worker [start_monitoring] made),
    [stop_monitoring] raises on joining its own thread: the exception
    leaves [monitor_screen] and the status stays at the too-many-errors
    message. Run in any other thread the loop returns and the status is
    the stopped message. *)
Theorem budget_exhausted_exit (rgb2gray : pixel -> Z) (me : thread_id) (a : app)
        (errors : nat) (failures more : list (outcome (option Image))) :
  monitoring a = true ->
  (errors < max_errors)%nat ->
  length failures = max_errors ->
  Forall (fun shot => capture_failed shot = true) failures ->
  let r := monitor_loop rgb2gray me (failures ++ more) (Loop a errors) in
  (monitor_thread a = Some me ->
   exit_of r = Crashed /\ status (gui (final_state r)) = TooManyErrors) /\
  (monitor_thread a <> Some me ->
   exit_of r = Left /\ status (gui (final_state r)) = MonitoringStopped).
Proof.
  intros Hrun Herr Hlen Hfail.
  pose proof (@failing_run_exit rgb2gray me more failures (Loop a errors)) as H.
  cbn [gui error_count] in H. rewrite Hlen in H.
  specialize (H Hrun Hfail ltac:(lia)). cbv zeta in H |- *.
  split.
  - intros Hme. rewrite Hme in H.
    now replace (thread_eqb me me) with true in H by (now destruct me).
  - intros Hother.
    destruct (monitor_thread a) as [t|]; [| exact H].
    replace (thread_eqb t me) with false in H; [exact H|].
    destruct t, me; try reflexivity; congruence.
Qed.

Lemma budget_exhausted_exit_witness :
  monitoring Samples.session = true /\
  (0 < max_errors)%nat /\
  monitor_thread Samples.session = Some WorkerThread /\
  exit_of (monitor_loop cv_rgb2gray WorkerThread
             ([Samples.shot_none; Samples.shot_none; Samples.shot_none;
               Samples.shot_none; Samples.shot_none] ++ [Samples.shot_hit])
             (Loop Samples.session 0)) = Crashed.
Proof.
  split; [reflexivity|]. split; [unfold max_errors; lia|].
  split; [reflexivity|].
  apply (@budget_exhausted_exit cv_rgb2gray WorkerThread Samples.session 0
           [Samples.shot_none; Samples.shot_none; Samples.shot_none;
            Samples.shot_none; Samples.shot_none] [Samples.shot_hit]);
    try reflexivity.
  - unfold max_errors; lia.
  - repeat constructor.
Defined.

(** X6. The loop never writes the configuration, the entry fields or the
    thread handle: after any run they are what they were. *)
Theorem loop_keeps_configuration (rgb2gray : pixel -> Z) (me : thread_id)
        (shots : list (outcome (option Image))) (st : loop_state) :
  let r := monitor_loop rgb2gray me shots st in
  config (gui (final_state r)) = config (gui st) /\
  form (gui (final_state r)) = form (gui st) /\
  monitor_thread (gui (final_state r)) = monitor_thread (gui st).
Proof.
  revert st. induction shots as [|shot rest IH]; intros st; cbv zeta.
  - cbn [monitor_loop]. now destruct (monitoring (gui st)).
  - destruct (monitoring (gui st)) eqn:Hrun;
      [| now rewrite monitor_loop_stopped].
    rewrite monitor_loop_cons by assumption. cbv zeta.
    destruct (cycle_keeps rgb2gray me shot st) as (Hc & Hf & Ht).
    destruct (goes_on _); unfold final_state; cbn [fst snd].
    + destruct (IH (state_after (cycle rgb2gray me shot st))) as (IHc & IHf & IHt).
      unfold final_state in IHc, IHf, IHt.
      repeat split; congruence.
    + repeat split; assumption.
Qed.

(* ================================================================== *)
(** * Bounds of the classifier and the empty frame *)

Lemma count_pixels_le_total (test : pixel -> bool) (image : Image) :
  (count_pixels test image <= total_pixels image)%nat.
Proof.
  unfold count_pixels. rewrite <- pixels_length.
  rewrite <- (length_map test (pixels image)).
  apply count_nonzero_le_length.
Qed.

Lemma percentage_bounds (a n : nat) :
  (a <= n)%nat -> 0 <= percentage a n /\ percentage a n <= 100.
Proof.
  intros Ha. split.
  - rewrite <- (percentage_zero n). apply percentage_le. lia.
  - destruct n as [|n].
    + replace a with 0%nat by lia. rewrite percentage_zero. discriminate.
    + rewrite <- (@percentage_full (S n)) by lia. now apply percentage_le.
Qed.

Lemma pixels_empty (image : Image) :
  total_pixels image = 0%nat -> pixels image = [].
Proof.
  intros H. apply length_zero_iff_nil. now rewrite pixels_length.
Qed.

(** X7. Whatever the frame and the threshold, the white and the blue
    percentage lie between 0 and 100, and the black percentage of the
    quality check is a number between 0 and 100 unless the frame has no
    pixel, where it is [nan]. *)
Theorem ratios_bounded (rgb2gray : pixel -> Z) (image : Image) (threshold : Z) :
  (0 <= Monitor.detect_white_pixels rgb2gray image threshold /\
   Monitor.detect_white_pixels rgb2gray image threshold <= 100) /\
  (0 <= Monitor.detect_blue_pixels image /\
   Monitor.detect_blue_pixels image <= 100) /\
  match snd (Monitor.analyze_screenshot_quality image) with
  | Fin black_percentage =>
      (0 < total_pixels image)%nat /\
      0 <= black_percentage /\ black_percentage <= 100
  | NaN => total_pixels image = 0%nat
  | PInf => False
  end.
Proof.
  destruct (total_pixels image) as [|n] eqn:En.
  - unfold Monitor.detect_white_pixels, Monitor.detect_blue_pixels,
      Monitor.analyze_screenshot_quality.
    rewrite En, (pixels_empty image En). cbn.
    repeat split; discriminate.
  - assert (Hpos : (0 < total_pixels image)%nat) by lia.
    rewrite (detect_white_pixels_eq rgb2gray image threshold Hpos),
      (detect_blue_pixels_eq image Hpos),
      (analyze_screenshot_quality_eq image Hpos).
    cbn [snd]. rewrite <- En.
    repeat split; try assumption;
      apply percentage_bounds, count_pixels_le_total.
Qed.

(** X8. A frame without pixels is never a detection: its white and blue
    percentages are 0, the quality check reports it invalid with [nan],
    and the loop treats it as an invalid frame. *)
Theorem empty_frame (rgb2gray : pixel -> Z) (c : Config.MonitorConfig)
        (image : Image) (threshold : Z) :
  img_width image = 0%nat \/ img_height image = 0%nat ->
  Monitor.detect_white_pixels rgb2gray image threshold = 0 /\
  Monitor.detect_blue_pixels image = 0 /\
  Monitor.analyze_screenshot_quality image = (false, NaN) /\
  classify rgb2gray c (Returns (Some image)) = FrameInvalid.
Proof.
  intros Hempty.
  assert (En : total_pixels image = 0%nat) by (unfold total_pixels; nia).
  unfold classify, Monitor.detect_white_pixels, Monitor.detect_blue_pixels,
    Monitor.analyze_screenshot_quality.
  rewrite En, (pixels_empty image En). cbn. repeat split.
Qed.

Lemma empty_frame_witness :
  (img_width (solid 0 5 WHITE) = 0%nat \/ img_height (solid 0 5 WHITE) = 0%nat) /\
  Monitor.analyze_screenshot_quality (solid 0 5 WHITE) = (false, NaN).
Proof.
  split; [left; reflexivity|].
  apply (@empty_frame cv_rgb2gray Samples.cfg (solid 0 5 WHITE) 200).
  left; reflexivity.
Defined.

(* ================================================================== *)
(** * The probe of [start_monitoring] *)

(** The black image of the [except] branch never passes the quality
    check. *)
Lemma black_fallback_invalid (width height : nat) :
  fst (Monitor.analyze_screenshot_quality (solid width height BLACK)) = false.
Proof.
  destruct (Nat.eq_dec (total_pixels (solid width height BLACK)) 0) as [E|E].
  - unfold Monitor.analyze_screenshot_quality. rewrite E.
    now destruct (count_nonzero _).
  - rewrite analyze_screenshot_quality_eq by lia. cbn [fst].
    rewrite count_pixels_all by (intros col row _ _; reflexivity).
    apply Qle_bool_false_iff. rewrite percentage_full by lia.
    intros H. now apply H.
Qed.

(** X9. When the capture backend fails during the probe,
    [start_monitoring] does not start the session, whatever the
    configuration and the entry fields: the object is unchanged, one error
    is shown and no thread is started. *)
Theorem start_monitoring_needs_capture
        (screen_width screen_height : Z) (grab : Monitor.grabber)
        (save_ok : bool) (a : app) :
  (forall x y width height, grab x y width height = Raises) ->
  exists why : complaint,
    start_monitoring screen_width screen_height grab save_ok a
    = (a, if monitoring a then [] else [ShowError why]) /\
    (monitoring a = false ->
     running (fst (start_monitoring screen_width screen_height grab save_ok a))
     = false).
Proof.
  intros Hgrab. unfold start_monitoring.
  destruct (monitoring a) eqn:Hrun; cbn [negb].
  - exists ValidationFailed. split; [reflexivity | discriminate].
  - assert (Hprobe : fst (validate_configuration screen_width screen_height grab a)
                     = false).
    { unfold validate_configuration.
      destruct (_ || _ || _ || _)%bool; [reflexivity|].
      unfold Monitor.take_screenshot. rewrite Hgrab.
      unfold Image_new. destruct (_ || _)%bool; [reflexivity|].
      pose proof (black_fallback_invalid
                    (Z.to_nat (Z.min (Config.width (config a)) 100))
                    (Z.to_nat (Z.min (Config.height (config a)) 100))) as Hq.
      unfold solid in Hq.
      destruct (Monitor.analyze_screenshot_quality _) as [is_valid bp].
      cbn [fst] in Hq. subst is_valid. reflexivity. }
    destruct (validate_configuration screen_width screen_height grab a)
      as [is_valid message].
    cbn [fst] in Hprobe. subst is_valid. cbn [negb fst].
    eexists. split; [reflexivity|]. intros _. exact Hrun.
Qed.

Lemma start_monitoring_needs_capture_witness :
  (forall x y width height : Z, Samples.grab_fails x y width height = Raises) /\
  exists why : complaint,
    start_monitoring 1920 1080 Samples.grab_fails true (init None)
    = (init None, [ShowError why]).
Proof.
  split; [reflexivity|].
  destruct (@start_monitoring_needs_capture 1920 1080 Samples.grab_fails true
              (init None)) as (why & H & _); [reflexivity|].
  exists why. exact H.
Defined.

(** The configuration after [update_monitor_area] is the one before, or
    the one of the entry fields when it passes the range checks. *)
Lemma update_monitor_area_config (save_ok : bool) (a : app) :
  config (fst (update_monitor_area save_ok a)) = config a \/
  exists c, parse_form (form a) = Some c /\ ranges_ok c = true /\
            config (fst (update_monitor_area save_ok a)) = c.
Proof.
  unfold update_monitor_area, validate_inputs.
  destruct (parse_form (form a)) as [c|]; [| now left].
  destruct (ranges_ok c) eqn:Hr; [| now left].
  cbn [negb]. right. exists c.
  destruct save_ok; cbn [fst]; repeat split; assumption.
Qed.

(** X10. [start_monitoring] never brings a configuration out of range
    into the session by itself: when the configuration was within the
    ranges of [validate_inputs] before the call it is so after it,
    whatever the entry fields hold. *)
Theorem start_monitoring_keeps_ranges
        (screen_width screen_height : Z) (grab : Monitor.grabber)
        (save_ok : bool) (a : app) :
  ranges_ok (config a) = true ->
  ranges_ok (config (fst (start_monitoring screen_width screen_height grab
                            save_ok a))) = true.
Proof.
  intros Hok. unfold start_monitoring.
  destruct (monitoring a); cbn [negb]; [exact Hok|].
  destruct (validate_configuration _ _ _ _) as [is_valid message].
  destruct is_valid; cbn [negb]; [| exact Hok].
  pose proof (update_monitor_area_config save_ok a) as Hcfg.
  destruct (update_monitor_area save_ok a) as [a' shown].
  cbn [fst config set_status set_monitor_thread set_monitoring] in *.
  destruct Hcfg as [-> | (c & _ & Hc & ->)]; assumption.
Qed.

Lemma start_monitoring_keeps_ranges_witness :
  ranges_ok (config (init None)) = true /\
  ranges_ok (config (fst (start_monitoring 1920 1080 Samples.grab_white true
                            (init None)))) = true.
Proof.
  split; [reflexivity|].
  apply (@start_monitoring_keeps_ranges 1920 1080 Samples.grab_white true
           (init None)).
  reflexivity.
Defined.

(* ================================================================== *)
(** * Presets and the saved configuration *)

Lemma dict_get_set_same (name : String.string) (value : Store.preset)
      (d : Store.preset_dict) :
  Store.dict_get name (Store.dict_set name value d) = Some value.
Proof.
  induction d as [|[key old] rest IH]; cbn.
  - now rewrite String.eqb_refl.
  - destruct (String.eqb key name) eqn:E; cbn; now rewrite E.
Qed.

Lemma dict_get_set_other (name other : String.string) (value : Store.preset)
      (d : Store.preset_dict) :
  other <> name ->
  Store.dict_get other (Store.dict_set name value d) = Store.dict_get other d.
Proof.
  intros Hneq. induction d as [|[key old] rest IH]; cbn.
  - destruct (String.eqb name other) eqn:E; [| reflexivity].
    apply String.eqb_eq in E. congruence.
  - destruct (String.eqb key name) eqn:E; cbn.
    + apply String.eqb_eq in E. subst key.
      destruct (String.eqb name other) eqn:E'; [| reflexivity].
      apply String.eqb_eq in E'. congruence.
    + now rewrite IH.
Qed.

Lemma dict_get_del_same (name : String.string) (d : Store.preset_dict) :
  Store.dict_get name (Store.dict_del name d) = None.
Proof.
  induction d as [|[key old] rest IH]; cbn; [reflexivity|].
  destruct (String.eqb key name) eqn:E; cbn; [exact IH|].
  now rewrite E.
Qed.

Lemma dict_get_del_other (name other : String.string) (d : Store.preset_dict) :
  other <> name ->
  Store.dict_get other (Store.dict_del name d) = Store.dict_get other d.
Proof.
  intros Hneq. unfold Store.dict_del.
  induction d as [|[key old] rest IH]; cbn; [reflexivity|].
  destruct (String.eqb key name) eqn:E; cbn.
  - apply String.eqb_eq in E. subst key.
    destruct (String.eqb name other) eqn:E'; [| exact IH].
    apply String.eqb_eq in E'. congruence.
  - now rewrite IH.
Qed.

Lemma dict_contains_get (name : String.string) (d : Store.preset_dict) :
  Store.dict_contains name d = true <-> Store.dict_get name d <> None.
Proof.
  induction d as [|[key old] rest IH]; cbn.
  - split; [discriminate | congruence].
  - destruct (String.eqb key name); cbn; [| exact IH].
    split; [discriminate | reflexivity].
Qed.

Lemma dict_contains_keys (name : String.string) (d : Store.preset_dict) :
  Store.dict_contains name d = true <-> In name (map fst d).
Proof.
  induction d as [|[key old] rest IH]; cbn.
  - split; [discriminate | tauto].
  - destruct (String.eqb key name) eqn:E; cbn.
    + apply String.eqb_eq in E. split; auto.
    + apply String.eqb_neq in E. rewrite IH. split; [auto|].
      intros [H|H]; [congruence | assumption].
Qed.

Lemma dict_set_keys (name : String.string) (value : Store.preset)
      (d : Store.preset_dict) :
  map fst (Store.dict_set name value d) =
  if Store.dict_contains name d then map fst d else map fst d ++ [name].
Proof.
  unfold Store.dict_contains.
  induction d as [|[key old] rest IH]; cbn; [reflexivity|].
  destruct (String.eqb key name) eqn:E; cbn; [reflexivity|].
  rewrite IH. now destruct (existsb _ rest).
Qed.

Lemma dict_del_keys (name : String.string) (d : Store.preset_dict) :
  map fst (Store.dict_del name d) =
  filter (fun key => negb (String.eqb key name)) (map fst d).
Proof.
  unfold Store.dict_del.
  induction d as [|[key old] rest IH]; cbn; [reflexivity|].
  destruct (String.eqb key name); cbn; now rewrite IH.
Qed.

(** X11. A configuration written by [save_config_to_file] and read back by
    [load_config_from_file] is the same configuration, field for field;
    when the write fails and leaves no readable file, loading gives the
    defaults. *)
Theorem config_file_round_trip (c : Config.MonitorConfig) (m : Store.manager) :
  Store.load_config (fst (Store.save_config_to_file Store.Written c m))
  = c /\
  snd (Store.save_config_to_file Store.Written c m) = Returns tt /\
  Store.load_config
    (fst (Store.save_config_to_file (Store.WriteFailed None) c m))
  = Config.default /\
  snd (Store.save_config_to_file (Store.WriteFailed None) c m) = Raises.
Proof. destruct c. repeat split. Qed.

Lemma add_then_get_preset_gen (w : Store.write Store.preset_dict)
      (name : String.string) (c : Config.MonitorConfig) (m : Store.manager) :
  Store.get_preset name (fst (Store.add_preset w name c m))
  = Some (Store.config_dict c).
Proof.
  unfold Store.get_preset, Store.add_preset, Store.save_presets.
  destruct w; cbn [fst Store.presets]; apply dict_get_set_same.
Qed.

(** X12. After [add_preset] the preset of that name holds the seven
    fields of the configuration, also when writing the presets file
    failed and the call raised; the presets of other names are as
    before. *)
Theorem add_then_get_preset (w : Store.write Store.preset_dict)
        (name : String.string) (c : Config.MonitorConfig) (m : Store.manager) :
  Store.get_preset name (fst (Store.add_preset w name c m))
  = Some (Store.config_dict c) /\
  (forall other, other <> name ->
     Store.get_preset other (fst (Store.add_preset w name c m))
     = Store.get_preset other m).
Proof.
  unfold Store.get_preset, Store.add_preset, Store.save_presets.
  destruct w; cbn [fst Store.presets]; split;
    try apply dict_get_set_same; intros other Hneq;
    now apply dict_get_set_other.
Qed.

Lemma add_then_get_preset_witness :
  Names.den <> Names.cave /\
  Store.get_preset Names.den
    (fst (Store.add_preset Store.Written Names.cave Samples.cfg
            (Store.open (Some [(Names.den, Store.config_dict Config.default)])
                        None)))
  = Some (Store.config_dict Config.default).
Proof.
  split; [discriminate|].
  destruct (add_then_get_preset Store.Written Names.cave Samples.cfg
              (Store.open (Some [(Names.den, Store.config_dict Config.default)])
                          None)) as (_ & Hother).
  rewrite (Hother Names.den); [reflexivity | discriminate].
Defined.

(** X13. After [delete_preset] no preset of that name is left and the
    others are as before; for a name that is not there the manager and
    both files are untouched and nothing is written, so the call cannot
    fail. *)
Theorem delete_preset_removes (w : Store.write Store.preset_dict)
        (name : String.string) (m : Store.manager) :
  Store.get_preset name (fst (Store.delete_preset w name m)) = None /\
  (forall other, other <> name ->
     Store.get_preset other (fst (Store.delete_preset w name m))
     = Store.get_preset other m) /\
  (Store.get_preset name m = None ->
   Store.delete_preset w name m = (m, Returns tt)).
Proof.
  unfold Store.get_preset, Store.delete_preset.
  destruct (Store.dict_contains name (Store.presets m)) eqn:E.
  - unfold Store.save_presets.
    destruct w; cbn [fst Store.presets]; repeat split;
      try apply dict_get_del_same;
      try (intros other Hneq; now apply dict_get_del_other);
      intros Hnone; apply dict_contains_get in E; contradiction.
  - cbn [fst]. repeat split.
    destruct (Store.dict_get name (Store.presets m)) eqn:G; [| reflexivity].
    assert (H : Store.dict_contains name (Store.presets m) = true)
      by (apply dict_contains_get; congruence).
    congruence.
Qed.

Lemma delete_preset_removes_witness :
  Names.den <> Names.cave /\
  Store.get_preset Names.den
    (fst (Store.delete_preset Store.Written Names.cave
            (Store.open (Some [(Names.den, Store.config_dict Config.default);
                               (Names.cave, Store.config_dict Samples.cfg)])
                        None)))
  = Some (Store.config_dict Config.default).
Proof.
  split; [discriminate|].
  destruct (delete_preset_removes Store.Written Names.cave
              (Store.open (Some [(Names.den, Store.config_dict Config.default);
                                 (Names.cave, Store.config_dict Samples.cfg)])
                          None)) as (_ & Hother & _).
  rewrite (Hother Names.den); [reflexivity | discriminate].
Defined.

(** X14. The list of preset names keeps its order: [add_preset] leaves it
    as it is for a name already there and puts a new name last;
    [delete_preset] takes the name out; and a list without repeated names
    stays so under both. *)
Theorem preset_names_order (w : Store.write Store.preset_dict)
        (name : String.string) (c : Config.MonitorConfig) (m : Store.manager) :
  Store.get_preset_names (fst (Store.add_preset w name c m))
  = (if Store.dict_contains name (Store.presets m)
     then Store.get_preset_names m
     else Store.get_preset_names m ++ [name]) /\
  Store.get_preset_names (fst (Store.delete_preset w name m))
  = filter (fun key => negb (String.eqb key name)) (Store.get_preset_names m) /\
  (NoDup (Store.get_preset_names m) ->
   NoDup (Store.get_preset_names (fst (Store.add_preset w name c m))) /\
   NoDup (Store.get_preset_names (fst (Store.delete_preset w name m)))).
Proof.
  assert (Hadd : Store.get_preset_names (fst (Store.add_preset w name c m))
                 = if Store.dict_contains name (Store.presets m)
                   then Store.get_preset_names m
                   else Store.get_preset_names m ++ [name]).
  { unfold Store.get_preset_names, Store.add_preset, Store.save_presets.
    destruct w; cbn [fst Store.presets]; apply dict_set_keys. }
  assert (Hdel : Store.get_preset_names (fst (Store.delete_preset w name m))
                 = filter (fun key => negb (String.eqb key name))
                          (Store.get_preset_names m)).
  { unfold Store.get_preset_names, Store.delete_preset.
    destruct (Store.dict_contains name (Store.presets m)) eqn:E.
    - unfold Store.save_presets.
      destruct w; cbn [fst Store.presets]; apply dict_del_keys.
    - cbn [fst]. symmetry. apply forallb_filter_id.
      apply forallb_forall. intros key Hkey.
      destruct (String.eqb key name) eqn:E'; [| reflexivity].
      apply String.eqb_eq in E'. subst key.
      apply dict_contains_keys in Hkey. congruence. }
  split; [exact Hadd|]. split; [exact Hdel|].
  intros Hnodup. rewrite Hadd, Hdel. split.
  - destruct (Store.dict_contains name (Store.presets m)) eqn:E; [assumption|].
    apply NoDup_app; [assumption | repeat constructor; auto |].
    intros key Hkey [<- | []].
    apply dict_contains_keys in Hkey. congruence.
  - now apply NoDup_filter.
Qed.

Lemma preset_names_order_witness :
  NoDup (Store.get_preset_names
           (Store.open (Some [(Names.den, Store.config_dict Config.default)])
                       None)) /\
  Store.get_preset_names
    (fst (Store.add_preset Store.Written Names.cave Samples.cfg
            (Store.open (Some [(Names.den, Store.config_dict Config.default)])
                        None)))
  = [Names.den; Names.cave].
Proof.
  split; [repeat constructor; simpl; tauto|].
  apply (preset_names_order Store.Written Names.cave Samples.cfg
           (Store.open (Some [(Names.den, Store.config_dict Config.default)])
                       None)).
Defined.

(** X15. Every change of the presets that is written reaches the file as
    a whole: after an [add_preset] or a [delete_preset] whose write
    succeeded, a manager opened on the files has the same presets. When
    the write of [add_preset] fails the call raises, and the preset is in
    the dict all the same. *)
Theorem presets_persisted (name : String.string) (c : Config.MonitorConfig)
        (m : Store.manager) (left_behind : option Store.preset_dict) :
  let added := fst (Store.add_preset Store.Written name c m) in
  let deleted := fst (Store.delete_preset Store.Written name m) in
  let failed := Store.add_preset (Store.WriteFailed left_behind) name c m in
  Store.presets (Store.open (Store.presets_on_disk added)
                            (Store.config_on_disk added))
  = Store.presets added /\
  (Store.get_preset name m <> None ->
   Store.presets (Store.open (Store.presets_on_disk deleted)
                             (Store.config_on_disk deleted))
   = Store.presets deleted) /\
  snd failed = Raises /\
  Store.get_preset name (fst failed) = Some (Store.config_dict c) /\
  Store.presets_on_disk (fst failed) = left_behind.
Proof.
  cbv zeta. split; [reflexivity|]. split.
  - intros Hsome. apply dict_contains_get in Hsome.
    unfold Store.delete_preset. now rewrite Hsome.
  - repeat split. apply dict_get_set_same.
Qed.

Lemma presets_persisted_witness :
  Store.get_preset Names.cave
    (Store.open (Some [(Names.cave, Store.config_dict Samples.cfg)]) None)
  <> None /\
  Store.presets
    (Store.open
       (Store.presets_on_disk
          (fst (Store.delete_preset Store.Written Names.cave
                  (Store.open (Some [(Names.cave,
                                      Store.config_dict Samples.cfg)]) None))))
       None)
  = [].
Proof.
  split; [discriminate|].
  destruct (presets_persisted Names.cave Samples.cfg
              (Store.open (Some [(Names.cave, Store.config_dict Samples.cfg)])
                          None) None) as (_ & Hdel & _).
  exact (Hdel ltac:(discriminate)).
Defined.

(* ================================================================== *)
(** * Screen size and capture sessions *)

(** X16. [get_screen_size] reports the first entry of [sct.monitors], the
    virtual screen, whenever there is one, also when it is the only entry;
    it reports 1920x1080 when the list is empty or cannot be had. No other
    entry is ever used. *)
Theorem get_screen_size_first (monitors : outcome (list Screen.monitor_rect)) :
  Screen.get_screen_size monitors =
  match monitors with
  | Returns (first :: _) => (Screen.width first, Screen.height first)
  | Returns [] | Raises => (1920, 1080)%Z
  end.
Proof.
  destruct monitors as [[|first [|second rest]]|]; reflexivity.
Qed.

Lemma sessions_ok_new : sessions_ok Screen.new.
Proof. repeat split; cbn; intros; try discriminate; contradiction. Qed.

Lemma set_instance_same (t : Screen.thread) (v : option Screen.mss_session)
      (store : Screen.thread -> option Screen.mss_session) :
  Screen.set_instance t v store t = v.
Proof. unfold Screen.set_instance. now rewrite Nat.eqb_refl. Qed.

Lemma set_instance_other (t t' : Screen.thread) (v : option Screen.mss_session)
      (store : Screen.thread -> option Screen.mss_session) :
  t' <> t -> Screen.set_instance t v store t' = store t'.
Proof.
  intros H. unfold Screen.set_instance.
  destruct (t' =? t)%nat eqn:E; [apply Nat.eqb_eq in E; contradiction | reflexivity].
Qed.

Lemma sessions_ok_get (create_ok : bool) (t : Screen.thread)
      (s : Screen.screen_monitor) :
  sessions_ok s -> sessions_ok (fst (Screen.get_mss_instance create_ok t s)).
Proof.
  intros Hs. unfold Screen.get_mss_instance.
  destruct (Screen.mss_instance s t) as [h|] eqn:E; [exact Hs|].
  destruct create_ok; [| exact Hs].
  destruct Hs as (Hlive & Huniq & Hclosed).
  cbn [fst]. unfold sessions_ok.
  cbn [Screen.mss_instance Screen.created Screen.closed].
  split; [| split].
  - intros t' h' Hget.
    destruct (Nat.eq_dec t' t) as [->|Hneq].
    + rewrite set_instance_same in Hget. injection Hget as <-.
      split; [lia|]. intros Hin. apply Hclosed in Hin. lia.
    + rewrite set_instance_other in Hget by assumption.
      destruct (Hlive _ _ Hget). split; [lia | assumption].
  - intros t1 t2 h' H1 H2.
    destruct (Nat.eq_dec t1 t) as [->|N1], (Nat.eq_dec t2 t) as [->|N2];
      try reflexivity.
    + rewrite set_instance_same in H1. injection H1 as <-.
      rewrite set_instance_other in H2 by assumption.
      destruct (Hlive _ _ H2). lia.
    + rewrite set_instance_same in H2. injection H2 as <-.
      rewrite set_instance_other in H1 by assumption.
      destruct (Hlive _ _ H1). lia.
    + rewrite set_instance_other in H1, H2 by assumption. eauto.
  - intros h' Hin. apply Hclosed in Hin. lia.
Qed.

Lemma sessions_ok_cleanup (t : Screen.thread) (s : Screen.screen_monitor) :
  sessions_ok s -> sessions_ok (Screen.cleanup t s).
Proof.
  intros Hs. unfold Screen.cleanup.
  destruct (Screen.mss_instance s t) as [h|] eqn:E; [| exact Hs].
  destruct Hs as (Hlive & Huniq & Hclosed).
  unfold sessions_ok. cbn [Screen.mss_instance Screen.created Screen.closed].
  split; [| split].
  - intros t' h' Hget.
    destruct (Nat.eq_dec t' t) as [->|Hneq].
    + rewrite set_instance_same in Hget. discriminate.
    + rewrite set_instance_other in Hget by assumption.
      destruct (Hlive _ _ Hget) as [Hlt Hnot]. split; [assumption|].
      intros [<- | Hin]; [| contradiction].
      apply Hneq. eapply Huniq; eassumption.
  - intros t1 t2 h' H1 H2.
    destruct (Nat.eq_dec t1 t) as [->|N1];
      [rewrite set_instance_same in H1; discriminate|].
    destruct (Nat.eq_dec t2 t) as [->|N2];
      [rewrite set_instance_same in H2; discriminate|].
    rewrite set_instance_other in H1, H2 by assumption. eauto.
  - intros h' [<- | Hin]; [| now apply Hclosed].
    now destruct (Hlive _ _ E).
Qed.

Lemma sessions_ok_calls (calls : list Screen.call) :
  forall s, sessions_ok s -> sessions_ok (Screen.do_calls calls s).
Proof.
  unfold Screen.do_calls.
  induction calls as [|c rest IH]; intros s Hs; cbn [fold_left]; [assumption|].
  apply IH. destruct c as [create_ok t | t]; cbn [Screen.do_call].
  - now apply sessions_ok_get.
  - now apply sessions_ok_cleanup.
Qed.

(** X17. After any calls to a [ScreenMonitor] from any threads, the
    session [get_mss_instance] hands to a thread is open and is no other
    thread's; asking again in that thread gives the same session without
    creating one; and [cleanup] called in another thread neither closes
    it nor takes it away. *)
Theorem capture_session_per_thread (calls : list Screen.call)
        (create_ok : bool) (t : Screen.thread) (h : Screen.mss_session) :
  let s := Screen.do_calls calls Screen.new in
  let s1 := fst (Screen.get_mss_instance create_ok t s) in
  snd (Screen.get_mss_instance create_ok t s) = Returns h ->
  ~ In h (Screen.closed s1) /\
  (forall other, other <> t -> Screen.mss_instance s1 other <> Some h) /\
  (forall again, Screen.get_mss_instance again t s1 = (s1, Returns h)) /\
  (forall other, other <> t ->
     Screen.mss_instance (Screen.cleanup other s1) t = Some h /\
     ~ In h (Screen.closed (Screen.cleanup other s1))).
Proof.
  cbv zeta. intros Hret.
  set (s := Screen.do_calls calls Screen.new) in *.
  assert (Hs : sessions_ok s) by (apply sessions_ok_calls, sessions_ok_new).
  pose proof (sessions_ok_get create_ok t Hs) as Hs1.
  set (s1 := fst (Screen.get_mss_instance create_ok t s)) in *.
  assert (Hmine : Screen.mss_instance s1 t = Some h).
  { subst s1. unfold Screen.get_mss_instance in *.
    destruct (Screen.mss_instance s t) as [h0|] eqn:E.
    - cbn [fst snd] in *. congruence.
    - destruct create_ok; cbn [fst snd] in *; [| discriminate].
      injection Hret as <-. cbn. apply set_instance_same. }
  destruct Hs1 as (Hlive & Huniq & Hclosed).
  destruct (Hlive _ _ Hmine) as [_ Hopen].
  split; [exact Hopen|]. split; [| split].
  - intros other Hneq Hother. apply Hneq. eapply Huniq; eassumption.
  - intros again. unfold Screen.get_mss_instance. now rewrite Hmine.
  - intros other Hneq.
    pose proof (@sessions_ok_cleanup other s1 (conj Hlive (conj Huniq Hclosed)))
      as (Hlive' & _ & _).
    assert (Hkept : Screen.mss_instance (Screen.cleanup other s1) t = Some h).
    { unfold Screen.cleanup.
      destruct (Screen.mss_instance s1 other); [| exact Hmine].
      cbn. rewrite set_instance_other by congruence. exact Hmine. }
    split; [exact Hkept|]. now destruct (Hlive' _ _ Hkept).
Qed.

Lemma capture_session_per_thread_witness :
  snd (Screen.get_mss_instance true 1%nat
         (Screen.do_calls [Screen.GetInstance true 0%nat; Screen.Cleanup 0%nat;
                           Screen.GetInstance true 0%nat] Screen.new))
  = Returns 2%nat /\
  Screen.mss_instance
    (Screen.cleanup 0%nat
       (fst (Screen.get_mss_instance true 1%nat
               (Screen.do_calls [Screen.GetInstance true 0%nat; Screen.Cleanup 0%nat;
                                 Screen.GetInstance true 0%nat] Screen.new)))) 1%nat
  = Some 2%nat.
Proof.
  split; [reflexivity|].
  apply (@capture_session_per_thread
           [Screen.GetInstance true 0%nat; Screen.Cleanup 0%nat; Screen.GetInstance true 0%nat]
           true 1%nat 2%nat); [reflexivity | discriminate].
Defined.

(* ================================================================== *)
(** * Sessions at the desk *)

(** On the window, [Desk.update_area] and [Desk.start_session]
    are the functions of [Gui]. *)
Lemma desk_update_window (w : Store.write ConfigManager.config_data)
      (d : Desk.desk) :
  Desk.window (fst (Desk.update_area w d))
    = fst (Gui.update_monitor_area (Desk.written w) (Desk.window d)) /\
  snd (Desk.update_area w d)
    = snd (Gui.update_monitor_area (Desk.written w) (Desk.window d)).
Proof.
  unfold Desk.update_area.
  destruct (Gui.update_monitor_area _ _) as [a shown].
  now destruct (fst (validate_inputs (Desk.window d))).
Qed.

Lemma desk_start_window (w : Store.write ConfigManager.config_data)
      (screen_width screen_height : Z) (grab : Monitor.grabber) (d : Desk.desk) :
  Desk.window (fst (Desk.start_session w screen_width screen_height grab d))
    = fst (Gui.start_monitoring screen_width screen_height grab
             (Desk.written w) (Desk.window d)) /\
  snd (Desk.start_session w screen_width screen_height grab d)
    = snd (Gui.start_monitoring screen_width screen_height grab
             (Desk.written w) (Desk.window d)).
Proof.
  unfold Desk.start_session, Gui.start_monitoring.
  destruct (monitoring (Desk.window d)); cbn [negb]; [now split|].
  destruct (validate_configuration _ _ _ _) as [is_valid message].
  destruct is_valid; cbn [negb]; [| now split].
  destruct (desk_update_window w d) as [Hw Hs].
  destruct (Desk.update_area w d) as [d1 shown1].
  destruct (Gui.update_monitor_area _ _) as [a shown].
  cbn [fst snd Desk.window] in *. now subst.
Qed.

(** What [update_monitor_area] does to the configuration and its file. *)
Lemma desk_update_cases (w : Store.write ConfigManager.config_data)
      (d : Desk.desk) :
  let d1 := fst (Desk.update_area w d) in
  Store.presets (Desk.manager d1) = Store.presets (Desk.manager d) /\
  Store.presets_on_disk (Desk.manager d1)
    = Store.presets_on_disk (Desk.manager d) /\
  form (Desk.window d1) = form (Desk.window d) /\
  ((fst (validate_inputs (Desk.window d)) = false /\ d1 = d) \/
   (fst (validate_inputs (Desk.window d)) = true /\
    parse_form (form (Desk.window d)) = Some (config (Desk.window d1)) /\
    ranges_ok (config (Desk.window d1)) = true /\
    (Desk.written w = true ->
     Store.config_on_disk (Desk.manager d1)
     = Some (Store.config_dict (config (Desk.window d1)))))).
Proof.
  destruct d as [a n m]. unfold Desk.update_area, Gui.update_monitor_area.
  cbn [Desk.window Desk.notice Desk.manager].
  unfold validate_inputs.
  destruct (parse_form (form a)) as [c|] eqn:Hp.
  - destruct (ranges_ok c) eqn:Hr; cbn [negb fst].
    + destruct w as [|left_behind]; cbn; repeat split; right;
        repeat split; try assumption; discriminate.
    + cbn. repeat split. now left.
  - cbn. repeat split. now left.
Qed.

Lemma fill_form_config_dict (c : Config.MonitorConfig) (f : form_vars) :
  Desk.fill_form (Store.config_dict c) f = (form_of_config c, true) /\
  Desk.is_empty (Store.config_dict c) = false /\
  parse_form (form_of_config c) = Some c.
Proof. now destruct c. Qed.

(** One action changes the configuration only to one within the ranges. *)
Lemma act_config (a : Desk.action) (d : Desk.desk) :
  config (Desk.window (Desk.act a d)) = config (Desk.window d) \/
  ranges_ok (config (Desk.window (Desk.act a d))) = true.
Proof.
  assert (Hupd : forall w d0,
             config (Desk.window (fst (Desk.update_area w d0)))
             = config (Desk.window d0) \/
             ranges_ok (config (Desk.window (fst (Desk.update_area w d0))))
             = true).
  { intros w d0.
    destruct (desk_update_cases w d0) as (_ & _ & _ & [[_ ->] | (_ & _ & Hr & _)]);
      auto. }
  assert (Hload : forall w name d0,
             config (Desk.window (fst (fst (Desk.load_preset w name d0))))
             = config (Desk.window d0) \/
             ranges_ok (config (Desk.window (fst (fst (Desk.load_preset w name d0)))))
             = true).
  { intros w name d0. unfold Desk.load_preset.
    destruct (Store.get_preset name (Desk.manager d0)) as [p|]; [| now left].
    destruct (Desk.is_empty p); [now left|].
    destruct (Desk.fill_form p (form (Desk.window d0))) as [f complete].
    destruct complete; [| now left].
    specialize (Hupd w (Desk.MkDesk (Desk.set_form f (Desk.window d0))
                                    (Desk.notice d0) (Desk.manager d0))).
    destruct (Desk.update_area w _) as [d1 shown].
    cbn [fst Desk.window] in *. exact Hupd. }
  destruct a as [f | w | w preset_name overwrite w_presets | w selected
                 | selected confirm w_presets | w sw sh grab | w sw sh grab | ];
    cbn [Desk.act].
  - now left.
  - apply Hupd.
  - unfold Desk.save_current_as_preset.
    specialize (Hupd w d).
    destruct (Desk.update_area w d) as [d1 shown]. cbn [fst] in Hupd.
    destruct preset_name as [name|]; [| exact Hupd].
    destruct (String.eqb name String.EmptyString); [exact Hupd|].
    destruct (_ && _)%bool; [exact Hupd|].
    destruct (Store.add_preset _ _ _ _) as [m [u|]]; exact Hupd.
  - unfold Desk.on_preset_selected.
    destruct (_ && _)%bool; [apply Hload | now left].
  - unfold Desk.delete_selected_preset.
    destruct (String.eqb selected String.EmptyString); [now left|].
    destruct confirm; [| now left].
    destruct (Store.delete_preset _ _ _) as [m [u|]]; now left.
  - unfold Desk.test_area.
    destruct (validate_inputs (Desk.window d)) as [ok shown0].
    destruct ok; cbn [negb]; [| now left].
    specialize (Hupd w d).
    destruct (Desk.update_area w d) as [d1 shown]. cbn [fst] in Hupd.
    destruct (Monitor.take_screenshot _ _ _ _ _) as [[screenshot|]|];
      try exact Hupd;
      destruct (Monitor.analyze_screenshot_quality screenshot); exact Hupd.
  - unfold Desk.start_session.
    destruct (monitoring (Desk.window d)); cbn [negb]; [now left|].
    destruct (validate_configuration _ _ _ _) as [is_valid message].
    destruct is_valid; cbn [negb]; [| now left].
    specialize (Hupd w d).
    destruct (Desk.update_area w d) as [d1 shown]. exact Hupd.
  - left. unfold Desk.stop_session, Gui.stop_monitoring.
    unfold_stmt. now split_ifs.
Qed.

(** X18. No action at the desk brings a configuration out of range into
    the session: when the configuration is within the ranges of
    [validate_inputs], it is so after any sequence of typing, updating,
    saving, selecting and deleting presets, testing the area, starting
    and stopping. *)
Theorem desk_keeps_ranges (actions : list Desk.action) (d : Desk.desk) :
  ranges_ok (config (Desk.window d)) = true ->
  ranges_ok (config (Desk.window (Desk.acts actions d))) = true.
Proof.
  revert d. unfold Desk.acts.
  induction actions as [|a rest IH]; intros d Hok; cbn [fold_left];
    [assumption|].
  apply IH. destruct (act_config a d) as [-> | H]; assumption.
Qed.

Lemma desk_keeps_ranges_witness :
  ranges_ok (config (Desk.window (Desk.startup None None))) = true /\
  ranges_ok
    (config (Desk.window
       (Desk.acts
          [Desk.TypeFields (form_of_config Samples.cfg_negative);
           Desk.UpdateArea Store.Written;
           Desk.SavePreset Store.Written (Some Names.den) true Store.Written;
           Desk.Start Store.Written 1920 1080 Samples.grab_white]
          (Desk.startup None None)))) = true.
Proof.
  split; [reflexivity|].
  apply (@desk_keeps_ranges
           [Desk.TypeFields (form_of_config Samples.cfg_negative);
            Desk.UpdateArea Store.Written;
            Desk.SavePreset Store.Written (Some Names.den) true Store.Written;
            Desk.Start Store.Written 1920 1080 Samples.grab_white]
           (Desk.startup None None)).
  reflexivity.
Defined.

Lemma load_config_dict (c : Config.MonitorConfig) :
  ConfigManager.load_config_from_file (Some (Store.config_dict c)) = c.
Proof. now destruct c. Qed.

Lemma in_step_update (d : Desk.desk) :
  in_step d -> in_step (fst (Desk.update_area Store.Written d)).
Proof.
  intros [Hcfg Hpre].
  destruct (desk_update_cases Store.Written d)
    as (Hp & Hd & _ & [[_ ->] | (_ & _ & _ & Hfile)]); [now split|].
  split.
  - unfold Store.load_config. rewrite (Hfile eq_refl).
    apply load_config_dict.
  - now rewrite Hd, Hp.
Qed.

Lemma in_step_act (a : Desk.action) (d : Desk.desk) :
  Desk.writes_succeed a = true -> in_step d -> in_step (Desk.act a d).
Proof.
  intros Hw Hd.
  assert (Hload : forall name d0, in_step d0 ->
             in_step (fst (fst (Desk.load_preset Store.Written name d0)))).
  { intros name d0 [Hc Hp]. unfold Desk.load_preset.
    destruct (Store.get_preset name (Desk.manager d0)) as [p|]; [| now split].
    destruct (Desk.is_empty p); [now split|].
    destruct (Desk.fill_form p (form (Desk.window d0))) as [f complete].
    destruct complete; [| now split].
    pose proof (@in_step_update
                  (Desk.MkDesk (Desk.set_form f (Desk.window d0))
                               (Desk.notice d0) (Desk.manager d0))
                  (conj Hc Hp)) as H.
    destruct (Desk.update_area Store.Written _) as [d1 shown].
    exact H. }
  destruct a as [f | w | w preset_name overwrite w_presets | w selected
                 | selected confirm w_presets | w sw sh grab | w sw sh grab | ];
    cbn [Desk.act Desk.writes_succeed] in *.
  - exact Hd.
  - destruct w; [| discriminate]. now apply in_step_update.
  - destruct w; [| discriminate]. destruct w_presets; [| discriminate].
    unfold Desk.save_current_as_preset.
    pose proof (in_step_update Hd) as H.
    destruct (Desk.update_area Store.Written d) as [d1 shown].
    cbn [fst] in H.
    destruct preset_name as [name|]; [| exact H].
    destruct (String.eqb name String.EmptyString); [exact H|].
    destruct (Store.dict_contains name (Store.presets (Desk.manager d1))
              && negb overwrite)%bool; [exact H|].
    destruct H as [Hc Hp]. split; [exact Hc | reflexivity].
  - destruct w; [| discriminate]. unfold Desk.on_preset_selected.
    destruct (_ && _)%bool; [now apply Hload | exact Hd].
  - destruct w_presets; [| discriminate].
    unfold Desk.delete_selected_preset.
    destruct (String.eqb selected String.EmptyString); [exact Hd|].
    destruct confirm; [| exact Hd].
    unfold Store.delete_preset.
    destruct (Store.dict_contains selected _); [| exact Hd].
    destruct Hd as [Hc Hp]. split; [exact Hc | reflexivity].
  - destruct w; [| discriminate]. unfold Desk.test_area.
    destruct (validate_inputs (Desk.window d)) as [ok shown0].
    destruct ok; cbn [negb]; [| exact Hd].
    pose proof (in_step_update Hd) as H.
    destruct (Desk.update_area Store.Written d) as [d1 shown].
    destruct (Monitor.take_screenshot _ _ _ _ _) as [[screenshot|]|];
      try exact H;
      destruct (Monitor.analyze_screenshot_quality screenshot); exact H.
  - destruct w; [| discriminate]. unfold Desk.start_session.
    destruct (monitoring (Desk.window d)); cbn [negb]; [exact Hd|].
    destruct (validate_configuration _ _ _ _) as [is_valid message].
    destruct is_valid; cbn [negb]; [| exact Hd].
    pose proof (in_step_update Hd) as H.
    destruct (Desk.update_area Store.Written d) as [d1 shown].
    exact H.
  - destruct Hd as [Hc Hp].
    assert (Hsame : config (Desk.window (Desk.stop_session d))
                    = config (Desk.window d) /\
                    Desk.manager (Desk.stop_session d) = Desk.manager d).
    { unfold Desk.stop_session, Gui.stop_monitoring.
      unfold_stmt. now split_ifs. }
    destruct Hsame as [Hc' Hm']. unfold in_step. now rewrite Hm', Hc'.
Qed.

(** X19. As long as the writes succeed, the files always hold the session:
    after any actions at the desk, an application started afresh on the
    two files has the configuration and the presets the running one has. *)
Theorem restart_restores (presets_file : option Store.preset_dict)
        (config_file : option ConfigManager.config_data)
        (actions : list Desk.action) :
  forallb Desk.writes_succeed actions = true ->
  let d := Desk.acts actions (Desk.startup presets_file config_file) in
  let again := Desk.startup (Store.presets_on_disk (Desk.manager d))
                         (Store.config_on_disk (Desk.manager d)) in
  config (Desk.window again) = config (Desk.window d) /\
  Store.presets (Desk.manager again) = Store.presets (Desk.manager d).
Proof.
  intros Hw. cbv zeta.
  assert (Hstep : in_step (Desk.acts actions (Desk.startup presets_file config_file))).
  { assert (H0 : in_step (Desk.startup presets_file config_file)) by now split.
    revert H0. generalize (Desk.startup presets_file config_file).
    unfold Desk.acts. induction actions as [|a rest IH]; intros d Hd;
      cbn [fold_left]; [assumption|].
    cbn [forallb] in Hw. apply andb_true_iff in Hw as [Ha Hrest].
    apply (IH Hrest). now apply in_step_act. }
  destruct Hstep as [Hc Hp]. split; [exact Hc | exact Hp].
Qed.

Lemma restart_restores_witness :
  forallb Desk.writes_succeed
    [Desk.TypeFields (form_of_config Samples.cfg);
     Desk.SavePreset Store.Written (Some Names.cave) false Store.Written;
     Desk.Start Store.Written 1920 1080 Samples.grab_white; Desk.Stop] = true /\
  config (Desk.window
            (Desk.startup
               (Store.presets_on_disk (Desk.manager
                  (Desk.acts
                     [Desk.TypeFields (form_of_config Samples.cfg);
                      Desk.SavePreset Store.Written (Some Names.cave) false
                                      Store.Written;
                      Desk.Start Store.Written 1920 1080 Samples.grab_white;
                      Desk.Stop]
                     (Desk.startup None None))))
               (Store.config_on_disk (Desk.manager
                  (Desk.acts
                     [Desk.TypeFields (form_of_config Samples.cfg);
                      Desk.SavePreset Store.Written (Some Names.cave) false
                                      Store.Written;
                      Desk.Start Store.Written 1920 1080 Samples.grab_white;
                      Desk.Stop]
                     (Desk.startup None None))))))
  = Samples.cfg.
Proof.
  split; [reflexivity|].
  destruct (@restart_restores None None
              [Desk.TypeFields (form_of_config Samples.cfg);
               Desk.SavePreset Store.Written (Some Names.cave) false Store.Written;
               Desk.Start Store.Written 1920 1080 Samples.grab_white; Desk.Stop]
              eq_refl) as [Hc _].
  rewrite Hc. reflexivity.
Defined.

(** What [load_preset] does with a preset that holds a configuration
    within the ranges. *)
Lemma load_preset_of_config (w : Store.write ConfigManager.config_data)
      (name : String.string) (c : Config.MonitorConfig) (d : Desk.desk) :
  Store.get_preset name (Desk.manager d) = Some (Store.config_dict c) ->
  ranges_ok c = true ->
  let r := Desk.load_preset w name d in
  config (Desk.window (fst (fst r))) = c /\
  form (Desk.window (fst (fst r))) = form_of_config c /\
  Desk.notice (fst (fst r)) = Some (Desk.PresetLoaded name) /\
  snd r = false.
Proof.
  intros Hget Hr. cbv zeta. unfold Desk.load_preset. rewrite Hget.
  destruct (fill_form_config_dict c (form (Desk.window d))) as (-> & -> & Hparse).
  pose proof (desk_update_cases w
                (Desk.MkDesk (Desk.set_form (form_of_config c) (Desk.window d))
                             (Desk.notice d) (Desk.manager d))) as H.
  cbv zeta in H.
  destruct (Desk.update_area w _) as [d1 shown].
  cbn [fst snd Desk.window Desk.notice Desk.set_form form] in *.
  destruct H as (_ & _ & Hform & [[Hbad _] | (_ & Hcfg & _)]).
  - unfold validate_inputs in Hbad.
    cbn [form Desk.set_form] in Hbad. rewrite Hparse, Hr in Hbad. discriminate.
  - cbn [form Desk.set_form] in Hcfg. rewrite Hparse in Hcfg. injection Hcfg as Hcfg.
    repeat split; congruence.
Qed.

(** What [save_current_as_preset] leaves in the presets. *)
Lemma save_preset_facts (w : Store.write ConfigManager.config_data)
        (name : String.string) (overwrite : bool)
        (w_presets : Store.write Store.preset_dict) (d : Desk.desk) :
  name <> String.EmptyString ->
  overwrite = true \/ Store.get_preset name (Desk.manager d) = None ->
  let saved := fst (Desk.save_current_as_preset w (Some name) overwrite
                      w_presets d) in
  Store.get_preset name (Desk.manager saved)
  = Some (Store.config_dict (config (Desk.window saved))) /\
  (fst (validate_inputs (Desk.window d)) = false ->
   config (Desk.window saved) = config (Desk.window d)) /\
  Store.presets
    (Desk.manager (fst (Desk.save_current_as_preset w None overwrite
                          w_presets d)))
  = Store.presets (Desk.manager d).
Proof.
  intros Hname Hover. cbv zeta. unfold Desk.save_current_as_preset.
  pose proof (desk_update_cases w d) as H. cbv zeta in H.
  destruct (Desk.update_area w d) as [d1 shown]. cbn [fst] in H.
  destruct H as (Hp & _ & _ & Hcases).
  apply String.eqb_neq in Hname. rewrite Hname.
  assert (Hgo : Store.dict_contains name (Store.presets (Desk.manager d1))
                && negb overwrite = false).
  { destruct Hover as [-> | Hnone]; [apply andb_false_r|].
    rewrite Hp.
    destruct (Store.dict_contains name _) eqn:E; [| reflexivity].
    apply dict_contains_get in E. unfold Store.get_preset in Hnone.
    contradiction. }
  rewrite Hgo.
  pose proof (add_then_get_preset_gen w_presets name (config (Desk.window d1))
                (Desk.manager d1)) as Hadd.
  destruct (Store.add_preset w_presets name (config (Desk.window d1))
              (Desk.manager d1)) as [m [u|]];
    cbn [fst Desk.window Desk.manager] in *;
    (split; [exact Hadd|]; split; [| exact Hp]);
    intros Hbad; destruct Hcases as [[_ ->] | [Hok _]]; congruence.
Qed.

(** X20. [save_current_as_preset] stores the configuration the session
    holds after its own update, whatever the entry fields say: with a
    name given, and the overwrite confirmed or the name new, the preset of
    that name holds the seven fields of that configuration; with entry
    fields that do not validate this is the configuration from before the
    call. When the name dialog is cancelled the presets are untouched. *)
Theorem save_preset_stores_session (w : Store.write ConfigManager.config_data)
        (name : String.string) (overwrite : bool)
        (w_presets : Store.write Store.preset_dict) (d : Desk.desk) :
  name <> String.EmptyString ->
  overwrite = true \/ Store.get_preset name (Desk.manager d) = None ->
  let saved := fst (Desk.save_current_as_preset w (Some name) overwrite
                      w_presets d) in
  Store.get_preset name (Desk.manager saved)
  = Some (Store.config_dict (config (Desk.window saved))) /\
  (fst (validate_inputs (Desk.window d)) = false ->
   config (Desk.window saved) = config (Desk.window d)) /\
  Store.presets
    (Desk.manager (fst (Desk.save_current_as_preset w None overwrite
                          w_presets d)))
  = Store.presets (Desk.manager d).
Proof.
  intros Hname Hover. now apply save_preset_facts.
Qed.

Lemma save_preset_stores_session_witness :
  Names.cave <> String.EmptyString /\
  (false = true \/
   Store.get_preset Names.cave (Desk.manager (Desk.startup None None)) = None) /\
  Store.get_preset Names.cave
    (Desk.manager
       (fst (Desk.save_current_as_preset Store.Written (Some Names.cave) false
               Store.Written
               (Desk.act (Desk.TypeFields (form_of_config Samples.cfg_negative))
                         (Desk.startup None None)))))
  = Some (Store.config_dict Config.default).
Proof.
  split; [discriminate|]. split; [right; reflexivity|].
  destruct (@save_preset_stores_session Store.Written Names.cave false
              Store.Written
              (Desk.act (Desk.TypeFields (form_of_config Samples.cfg_negative))
                        (Desk.startup None None)))
    as (Hget & _ & _); [discriminate | right; reflexivity |].
  rewrite Hget. reflexivity.
Defined.

(** X21. A preset saved from a session brings that session's
    configuration back: when [save_current_as_preset] stored a
    configuration within the ranges under a name, [load_preset] of that
    name, from any state of the window in which the preset is still the
    same, sets the configuration and the entry fields to it and does not
    raise. *)
Theorem preset_round_trip (w : Store.write ConfigManager.config_data)
        (name : String.string) (overwrite : bool)
        (w_presets : Store.write Store.preset_dict) (d : Desk.desk)
        (w_later : Store.write ConfigManager.config_data) (later : Desk.desk) :
  name <> String.EmptyString ->
  overwrite = true \/ Store.get_preset name (Desk.manager d) = None ->
  let saved := fst (Desk.save_current_as_preset w (Some name) overwrite
                      w_presets d) in
  ranges_ok (config (Desk.window saved)) = true ->
  Store.get_preset name (Desk.manager later)
  = Store.get_preset name (Desk.manager saved) ->
  let r := Desk.load_preset w_later name later in
  config (Desk.window (fst (fst r))) = config (Desk.window saved) /\
  form (Desk.window (fst (fst r)))
  = form_of_config (config (Desk.window saved)) /\
  snd r = false.
Proof.
  intros Hname Hover saved Hr Hsame r.
  destruct (@save_preset_facts w name overwrite w_presets d Hname Hover)
    as (Hget & _ & _).
  fold saved in Hget. rewrite Hget in Hsame.
  destruct (@load_preset_of_config w_later name (config (Desk.window saved))
              later Hsame Hr) as (Hc & Hf & _ & Hraise).
  fold r in Hc, Hf, Hraise. repeat split; assumption.
Qed.

Lemma preset_round_trip_witness :
  Names.den <> String.EmptyString /\
  ranges_ok Samples.cfg = true /\
  config (Desk.window (fst (fst
    (Desk.load_preset Store.Written Names.den
       (Desk.acts
          [Desk.TypeFields (form_of_config Config.default);
           Desk.UpdateArea Store.Written]
          (fst (Desk.save_current_as_preset Store.Written (Some Names.den) true
                  Store.Written
                  (Desk.act (Desk.TypeFields (form_of_config Samples.cfg))
                            (Desk.startup None None)))))))))
  = Samples.cfg.
Proof.
  split; [discriminate|]. split; [reflexivity|].
  apply (@preset_round_trip Store.Written Names.den true Store.Written
           (Desk.act (Desk.TypeFields (form_of_config Samples.cfg))
                     (Desk.startup None None))
           Store.Written
           (Desk.acts
              [Desk.TypeFields (form_of_config Config.default);
               Desk.UpdateArea Store.Written]
              (fst (Desk.save_current_as_preset Store.Written (Some Names.den)
                      true Store.Written
                      (Desk.act (Desk.TypeFields (form_of_config Samples.cfg))
                                (Desk.startup None None)))))).
  - discriminate.
  - left; reflexivity.
  - reflexivity.
  - reflexivity.
Defined.

(** X22. Once the main thread has called [stop_monitoring], the session
    is not Running, the status line says so, and the loop, whenever it
    next tests its flag, leaves without a capture, an alert or a sleep,
    whatever it would have been given. *)
Theorem stop_silences_loop (rgb2gray : pixel -> Z) (me : thread_id)
        (shots : list (outcome (option Image))) (errors : nat) (d : Desk.desk) :
  monitor_thread (Desk.window d) <> Some MainThread ->
  let stopped := Desk.stop_session d in
  running (Desk.window stopped) = false /\
  Desk.status_var stopped = inl MonitoringStopped /\
  config (Desk.window stopped) = config (Desk.window d) /\
  monitor_loop rgb2gray me shots (Loop (Desk.window stopped) errors)
  = (Loop (Desk.window stopped) errors, [], Left).
Proof.
  intros Hthread. cbv zeta.
  assert (H : running (Desk.window (Desk.stop_session d)) = false /\
              Desk.status_var (Desk.stop_session d) = inl MonitoringStopped /\
              config (Desk.window (Desk.stop_session d))
              = config (Desk.window d)).
  { unfold Desk.stop_session, Gui.stop_monitoring, Desk.status_var, running.
    unfold_stmt. simpl_state.
    destruct (monitor_thread (Desk.window d)) as [[|]|] eqn:E;
      cbn; try (now repeat split); congruence. }
  destruct H as (Hrun & Hstatus & Hcfg).
  repeat split; try assumption.
  now apply monitor_loop_stopped.
Qed.

Lemma stop_silences_loop_witness :
  monitor_thread (Desk.window (Desk.MkDesk Samples.session None
                                 (Store.open None None)))
  <> Some MainThread /\
  monitor_loop cv_rgb2gray WorkerThread Samples.five_hits
    (Loop (Desk.window (Desk.stop_session
                          (Desk.MkDesk Samples.session None
                                       (Store.open None None)))) 0)
  = (Loop (Desk.window (Desk.stop_session
                          (Desk.MkDesk Samples.session None
                                       (Store.open None None)))) 0,
     [], Left).
Proof.
  split; [discriminate|].
  apply (@stop_silences_loop cv_rgb2gray WorkerThread Samples.five_hits 0
           (Desk.MkDesk Samples.session None (Store.open None None))).
  discriminate.
Defined.
